(** * The cafe resource of the HashiCups provider: model and properties

    The repository holds two drafts of one resource adapter:

    - [StringDraft] embeds src/unnamed/part_000, whose model keeps the
      identifier as [types.String];
    - [Int64Draft] embeds src/internal/provider/cafe_resource.go, whose
      model keeps the identifier as [types.Int64].

    Both are thin translations between the plugin framework's plan/state
    values and the calls of a HashiCups client.  The client, the framework
    and Go's [strconv] are external to the repository; they are modelled by
    what the handlers observe of them. *)

From Stdlib Require Import String Ascii List ZArith Lia Bool.
Import ListNotations.
Local Open Scope string_scope.
Local Open Scope Z_scope.

(** ** Go's [error] and [strconv] *)

(** A non-nil [error] is observed only through its [Error()] text. *)
Definition error := string.

Module strconv.

(** The sentinel errors wrapped by [*strconv.NumError]. *)
Inductive NumErr := ErrSyntax | ErrRange.

Definition NumErr_text (e : NumErr) : string :=
  match e with
  | ErrSyntax => "invalid syntax"
  | ErrRange => "value out of range"
  end.

Definition maxInt64 : Z := 9223372036854775807.
Definition maxUint64 : Z := 18446744073709551615.

(** [int] is 64 bits wide on the targets the provider is built for. *)
Definition is_int (z : Z) : Prop := - maxInt64 - 1 <= z <= maxInt64.

Definition digit (d : Z) : ascii := ascii_of_N (Z.to_N (48 + d)).

(** Digits of [n], most significant first, pushed in front of [acc]. *)
Fixpoint formatBits (fuel : nat) (n : Z) (acc : string) : string :=
  match fuel with
  | O => acc
  | S fuel' =>
      if n <? 10 then String (digit n) acc
      else formatBits fuel' (n / 10) (String (digit (n mod 10)) acc)
  end.

Definition formatUnsigned (n : Z) : string :=
  formatBits (S (Z.to_nat (Z.log2 n))) n EmptyString.

(** [strconv.Itoa]: base 10, a leading [-] for negative values. *)
Definition Itoa (i : Z) : string :=
  if i <? 0 then String "-" (formatUnsigned (- i)) else formatUnsigned i.

(** The digit loop of [strconv.ParseUint] in base 10: a byte that is not
    a digit is a syntax error, a value past [maxUint64] a range error. *)
Fixpoint parseDigits (s : string) (n : Z) : Z + NumErr :=
  match s with
  | EmptyString => inl n
  | String c rest =>
      let d := Z.of_N (N_of_ascii c) - 48 in
      if (0 <=? d) && (d <=? 9) then
        let n' := n * 10 + d in
        if n' >? maxUint64 then inr ErrRange else parseDigits rest n'
      else inr ErrSyntax
  end.

Definition parseUnsigned (s : string) : Z + NumErr :=
  match s with
  | EmptyString => inr ErrSyntax
  | _ => parseDigits s 0
  end.

(** [strconv.ParseInt(s, 10, 0)]: optional sign, digits, range of [int]. *)
Definition parseInt (s : string) : Z + NumErr :=
  match s with
  | EmptyString => inr ErrSyntax
  | String "+" rest =>
      match parseUnsigned rest with
      | inl n => if n >? maxInt64 then inr ErrRange else inl n
      | inr e => inr e
      end
  | String "-" rest =>
      match parseUnsigned rest with
      | inl n => if n >? maxInt64 + 1 then inr ErrRange else inl (- n)
      | inr e => inr e
      end
  | _ =>
      match parseUnsigned s with
      | inl n => if n >? maxInt64 then inr ErrRange else inl n
      | inr e => inr e
      end
  end.

(** A text that begins with a decimal digit, as every output of
    [formatUnsigned] does. *)
Definition starts_with_digit (s : string) : Prop :=
  exists d rest, 0 <= d <= 9 /\ s = String (digit d) rest.

Section Atoi.
(** [strconv.Quote], used only inside the text of a [NumError]. *)
Variable Quote : string -> string.

(** The [Error()] text of a [NumError]. *)
Definition NumError_Error (fn num : string) (e : NumErr) : error :=
  "strconv." ++ fn ++ ": parsing " ++ Quote num ++ ": " ++ NumErr_text e.

(** [strconv.Atoi]. *)
Definition Atoi (s : string) : Z + error :=
  match parseInt s with
  | inl n => inl n
  | inr e => inr (NumError_Error "Atoi" s e)
  end.

End Atoi.

End strconv.

(** ** Diagnostics of the plugin framework (package [diag]) *)

Module diag.

Inductive Severity := SeverityError | SeverityWarning.

(** A diagnostic as the handlers build and test it: severity, summary and
    detail (the handlers attach no attribute path). *)
Record Diagnostic := NewDiagnostic
  { severity : Severity; Summary : string; Detail : string }.

Definition Diagnostics := list Diagnostic.

Definition NewErrorDiagnostic (summary detail : string) : Diagnostic :=
  NewDiagnostic SeverityError summary detail.

Definition Severity_eqb (a b : Severity) : bool :=
  match a, b with
  | SeverityError, SeverityError => true
  | SeverityWarning, SeverityWarning => true
  | _, _ => false
  end.

(** [Diagnostic.Equal]: same severity, summary and detail. *)
Definition Equal (a b : Diagnostic) : bool :=
  Severity_eqb (severity a) (severity b)
  && String.eqb (Summary a) (Summary b)
  && String.eqb (Detail a) (Detail b).

Definition Contains (ds : Diagnostics) (d : Diagnostic) : bool :=
  existsb (Equal d) ds.

(** One step of [Diagnostics.Append]: a diagnostic already in the list is
    skipped, any other one is added at the end. *)
Definition Append1 (ds : Diagnostics) (d : Diagnostic) : Diagnostics :=
  if Contains ds d then ds else (ds ++ [d])%list.

(** [diags.Append(in...)]. *)
Definition Append (ds : Diagnostics) (more : Diagnostics) : Diagnostics :=
  fold_left Append1 more ds.

(** [diags.AddError(summary, detail)]. *)
Definition AddError (ds : Diagnostics) (summary detail : string) : Diagnostics :=
  Append ds [NewErrorDiagnostic summary detail].

(** [diags.HasError()]. *)
Definition HasError (ds : Diagnostics) : bool :=
  existsb (fun d => Severity_eqb (severity d) SeverityError) ds.

End diag.

(** ** Attribute values of the plugin framework (package [types]) *)

Module types.

(** [types.String]: null, unknown or a known text. *)
Inductive String := StringNull | StringUnknown | StringValue (s : string).

(** [ValueString()]: the known text, the empty text for null and unknown. *)
Definition ValueString (v : String) : string :=
  match v with
  | StringValue s => s
  | _ => EmptyString
  end.

(** [types.Int64]: null, unknown or a known 64-bit integer. *)
Inductive Int64 := Int64Null | Int64Unknown | Int64Value (i : Z).

(** [Int64Value.String()]: the decimal text of a known value, a marker for
    null and unknown. *)
Definition Int64_String (v : Int64) : string :=
  match v with
  | Int64Value i => strconv.Itoa i
  | Int64Null => "<null>"%string
  | Int64Unknown => "<unknown>"%string
  end.

End types.

(** ** The HashiCups client, as the handlers see it *)

Module hashicups.

(** [hashicups.Cafe], with the fields the handlers read and write. *)
Record Cafe := mkCafe
  { ID : Z; Name : string; Address : string; Description : string;
    Image : string }.

(** The requests a handler can send through the client. *)
Inductive Call :=
| CallCreateCafe (cafes : list Cafe)
| CallGetCafe (cafeID : string)
| CallGetCafes
| CallUpdateCafe (cafeID : string) (cafes : list Cafe)
| CallDeleteCafe (cafeID : string).

End hashicups.

(** ** Handlers as computations over the remote system

    A handler runs against a remote system in some state [W]; every call it
    makes through the client is appended to a log, and a call through a nil
    client ends the handler with a panic. *)

Section Effects.
Context {W : Type}.

Record Env := mkEnv { world : W; calls : list hashicups.Call }.

Inductive Outcome (A : Type) := Done (a : A) | Panic.

Definition M (A : Type) : Type := Env -> Outcome A * Env.

Definition ret {A} (a : A) : M A := fun e => (Done A a, e).

Definition bind {A B} (m : M A) (k : A -> M B) : M B :=
  fun e =>
    match m e with
    | (Done _ a, e') => k a e'
    | (Panic _, e') => (Panic B, e')
    end.

Definition panic {A} : M A := fun e => (Panic A, e).

(** One call through the client: the remote system answers and moves on,
    the request is logged. *)
Definition invoke {A} (c : hashicups.Call) (f : W -> A * W) : M A :=
  fun e =>
    let (a, w') := f (world e) in
    (Done A a, mkEnv w' (calls e ++ [c])%list).

End Effects.

Arguments Env : clear implicits.
Arguments M : clear implicits.
Arguments Done {A} a.
Arguments Panic {A}.

Notation "x <- m ;; k" := (bind m (fun x => k))
  (at level 61, m at next level, right associativity).

(** ** Values shared by the two drafts *)

(** [req.ProviderData], an [any]: a nil interface is [None]; otherwise the
    value has a dynamic type, either [*hashicups.Client] (a pointer, perhaps
    nil) or another type, of which only the name printed by [%T] matters. *)
Inductive any (C : Type) :=
| AnyClient (c : option C)
| AnyOther (dynType : string).

Arguments AnyClient {C} c.
Arguments AnyOther {C} dynType.

(** [req.Plan] and [req.State] are read through [Get(ctx, &target)] only:
    the diagnostics it reports and the model it stores in the target. *)
Record Source (Model : Type) := mkSource
  { Get : diag.Diagnostics * Model }.

Arguments mkSource {Model} Get.
Arguments Get {Model} s.

Record MetadataRequest := mkMetadataRequest { ProviderTypeName : string }.
Record MetadataResponse := mkMetadataResponse { TypeName : string }.

Record ConfigureRequest (C : Type) := mkConfigureRequest
  { ProviderData : option (any C) }.
Record ConfigureResponse := mkConfigureResponse
  { ConfigureResponse_Diagnostics : diag.Diagnostics }.

Arguments mkConfigureRequest {C} ProviderData.
Arguments ProviderData {C} c.

(** ** Resource schemas of the plugin framework (package [schema]) *)

Module schema.

(** [stringplanmodifier.UseStateForUnknown()], the one plan modifier the
    drafts use. *)
Inductive PlanModifier := UseStateForUnknown.

(** [schema.StringAttribute], with the fields the drafts set; a field left
    out of the Go literal has its zero value ([false], no modifier). *)
Record StringAttribute := mkStringAttribute
  { Required : bool;
    Optional : bool;
    Computed : bool;
    PlanModifiers : list PlanModifier }.

(** [schema.Schema]: the attribute map, kept as the list of its entries in
    the order of the Go literal (the keys are distinct). *)
Record Schema := mkSchema
  { Attributes : list (string * StringAttribute) }.

(** [Attributes[name]]. *)
Fixpoint lookup (name : string) (attrs : list (string * StringAttribute))
  : option StringAttribute :=
  match attrs with
  | [] => None
  | (key, attr) :: rest =>
      if String.eqb key name then Some attr else lookup name rest
  end.

End schema.

Record SchemaResponse := mkSchemaResponse { SchemaResponse_Schema : schema.Schema }.

(** ** Plans and states of the plugin framework (package [tfsdk])

    A plan or a state is an object: one value per attribute of the schema.
    [Get] fills the fields of a Go struct from it and [Set] builds it from
    the fields of a struct, each field matched to the attribute of its
    [tfsdk] tag.  A field whose Go type cannot hold the attribute's value, a
    field without an attribute or an attribute without a field is reported
    as a "Value Conversion Error", and then [Get] leaves the target and
    [Set] the state as they were.  The detail text of that diagnostic is
    the framework's own and is a parameter here. *)

Module tfsdk.

#[warnings="-register-all"]
Inductive Value :=
| OfString (v : types.String)
| OfInt64 (v : types.Int64)
| OfList (items : list Value)
| OfObject (fields : list (string * Value)).

Definition Object := list (string * Value).

Fixpoint lookup (name : string) (o : Object) : option Value :=
  match o with
  | [] => None
  | (key, v) :: rest => if String.eqb key name then Some v else lookup name rest
  end.

Definition is_text (v : Value) : bool :=
  match v with
  | OfString _ => true
  | _ => false
  end.

(** The object is one of the schema: every entry is a text value of a
    declared attribute (the schemas here declare text attributes only), and
    every declared attribute has an entry. *)
Definition conforms (s : schema.Schema) (o : Object) : bool :=
  forallb
    (fun entry =>
       match schema.lookup (fst entry) (schema.Attributes s) with
       | Some _ => is_text (snd entry)
       | None => false
       end) o
  && forallb
       (fun attr =>
          match lookup (fst attr) o with
          | Some _ => true
          | None => false
          end) (schema.Attributes s).

(** What a struct field of Go type [types.String], resp. [types.Int64],
    tagged [name], receives from the object. *)
Definition into_String (name : string) (o : Object) : option types.String :=
  match lookup name o with
  | Some (OfString v) => Some v
  | _ => None
  end.

Definition into_Int64 (name : string) (o : Object) : option types.Int64 :=
  match lookup name o with
  | Some (OfInt64 v) => Some v
  | _ => None
  end.

(** Every entry of the object has a field among the struct's tags. *)
Definition covered (tags : list string) (o : Object) : bool :=
  forallb (fun entry => existsb (String.eqb (fst entry)) tags) o.

Definition ValueConversionError (detail : string) : diag.Diagnostic :=
  diag.NewErrorDiagnostic "Value Conversion Error" detail.

End tfsdk.

(** ** src/unnamed/part_000: the draft with a text identifier

    Each handler takes the resource, the request and the response it is to
    fill, and returns the filled response.  A Go [return] is the end of a
    branch; the [HasError] test that closes [Create], [Read] and [Update]
    in the source returns on both sides and is left out. *)

Module StringDraft.

Record cafeResourceModel := mkModel
  { ID : types.String;
    Name : types.String;
    Address : types.String;
    Description : types.String;
    Image : types.String }.

Definition set_ID (v : types.String) (m : cafeResourceModel) :=
  mkModel v (Name m) (Address m) (Description m) (Image m).
Definition set_Name (v : types.String) (m : cafeResourceModel) :=
  mkModel (ID m) v (Address m) (Description m) (Image m).
Definition set_Address (v : types.String) (m : cafeResourceModel) :=
  mkModel (ID m) (Name m) v (Description m) (Image m).
Definition set_Description (v : types.String) (m : cafeResourceModel) :=
  mkModel (ID m) (Name m) (Address m) v (Image m).
Definition set_Image (v : types.String) (m : cafeResourceModel) :=
  mkModel (ID m) (Name m) (Address m) (Description m) v.

(** [resp.State] holds the persisted model, or nothing. *)
Record Response := mkResponse
  { State : option cafeResourceModel;
    Diagnostics : diag.Diagnostics }.

Definition Diagnostics_Append (resp : Response) (ds : diag.Diagnostics) :=
  mkResponse (State resp) (diag.Append (Diagnostics resp) ds).

Definition Diagnostics_AddError (resp : Response) (summary detail : string) :=
  mkResponse (State resp) (diag.AddError (Diagnostics resp) summary detail).

(** [resp.State.Set(ctx, model)]: the model becomes the state; the
    diagnostics of the conversion are returned (none for a model of known
    texts). *)
Definition State_Set (resp : Response) (m : cafeResourceModel)
  : diag.Diagnostics * Response :=
  ([], mkResponse (Some m) (Diagnostics resp)).

Record CreateRequest := mkCreateRequest
  { CreateRequest_Plan : Source cafeResourceModel }.
Record ReadRequest := mkReadRequest
  { ReadRequest_State : Source cafeResourceModel }.
Record UpdateRequest := mkUpdateRequest
  { UpdateRequest_Plan : Source cafeResourceModel }.
Record DeleteRequest := mkDeleteRequest
  { DeleteRequest_State : Source cafeResourceModel }.

Definition Metadata (req : MetadataRequest) (resp : MetadataResponse)
  : MetadataResponse :=
  mkMetadataResponse (ProviderTypeName req ++ "_cafe").

(** [Schema] of this draft: a computed identifier that keeps its prior
    value while unknown, and four optional texts. *)
Definition Schema (resp : SchemaResponse) : SchemaResponse :=
  mkSchemaResponse
    (schema.mkSchema
       [("id", schema.mkStringAttribute false false true [schema.UseStateForUnknown]);
        ("name", schema.mkStringAttribute false true false []);
        ("address", schema.mkStringAttribute false true false []);
        ("description", schema.mkStringAttribute false true false []);
        ("image", schema.mkStringAttribute false true false [])]).

Section Resource.
Context {W : Type}.

(** [strconv.Quote], which the text of an [Atoi] error goes through. *)
Variable Quote : string -> string.

(** The methods of [*hashicups.Client] this draft calls; [GetCafe] returns a
    list of cafes here. *)
Record Client := mkClient
  { CreateCafe : list hashicups.Cafe -> W -> (hashicups.Cafe + error) * W;
    GetCafe : string -> W -> (list hashicups.Cafe + error) * W;
    UpdateCafe :
      string -> list hashicups.Cafe -> W -> (hashicups.Cafe + error) * W;
    DeleteCafe : string -> W -> option error * W }.

Record cafeResource := mkResource { client : option Client }.

Definition NewCafeResource : cafeResource := mkResource None.

Definition client_CreateCafe (c : option Client) (cafes : list hashicups.Cafe)
  : M W (hashicups.Cafe + error) :=
  match c with
  | Some c => invoke (hashicups.CallCreateCafe cafes) (CreateCafe c cafes)
  | None => panic
  end.

Definition client_GetCafe (c : option Client) (cafeID : string)
  : M W (list hashicups.Cafe + error) :=
  match c with
  | Some c => invoke (hashicups.CallGetCafe cafeID) (GetCafe c cafeID)
  | None => panic
  end.

Definition client_UpdateCafe (c : option Client) (cafeID : string)
  (cafes : list hashicups.Cafe) : M W (hashicups.Cafe + error) :=
  match c with
  | Some c =>
      invoke (hashicups.CallUpdateCafe cafeID cafes) (UpdateCafe c cafeID cafes)
  | None => panic
  end.

Definition client_DeleteCafe (c : option Client) (cafeID : string)
  : M W (option error) :=
  match c with
  | Some c => invoke (hashicups.CallDeleteCafe cafeID) (DeleteCafe c cafeID)
  | None => panic
  end.

Definition Create (r : cafeResource) (req : CreateRequest) (resp : Response)
  : M W Response :=
  let (diags, plan) := Get (CreateRequest_Plan req) in
  let resp := Diagnostics_Append resp diags in
  if diag.HasError (Diagnostics resp) then ret resp else
  let cafe :=
    {| hashicups.ID := 0;
       hashicups.Name := types.ValueString (Name plan);
       hashicups.Address := types.ValueString (Address plan);
       hashicups.Description := types.ValueString (Description plan);
       hashicups.Image := types.ValueString (Image plan) |} in
  res <- client_CreateCafe (client r) [cafe] ;;
  match res with
  | inr err =>
      ret (Diagnostics_AddError resp
             "Error creating cafe"
             ("Could not create cafe, unexpected error: " ++ err))
  | inl createdCafe =>
      let plan :=
        set_ID (types.StringValue (strconv.Itoa (hashicups.ID createdCafe))) plan in
      let plan := set_Name (types.StringValue (hashicups.Name createdCafe)) plan in
      let plan :=
        set_Address (types.StringValue (hashicups.Address createdCafe)) plan in
      let plan :=
        set_Description
          (types.StringValue (hashicups.Description createdCafe)) plan in
      let plan := set_Image (types.StringValue (hashicups.Image createdCafe)) plan in
      let (diags, resp) := State_Set resp plan in
      ret (Diagnostics_Append resp diags)
  end.

Definition Read (r : cafeResource) (req : ReadRequest) (resp : Response)
  : M W Response :=
  let (diags, state) := Get (ReadRequest_State req) in
  let resp := Diagnostics_Append resp diags in
  if diag.HasError (Diagnostics resp) then ret resp else
  match strconv.Atoi Quote (types.ValueString (ID state)) with
  | inr err =>
      ret (Diagnostics_AddError resp
             "Error Converting Cafe ID"
             ("Could not convert cafe ID to integer: " ++ err))
  | inl cafeID =>
      res <- client_GetCafe (client r) (strconv.Itoa cafeID) ;;
      match res with
      | inr err =>
          ret (Diagnostics_AddError resp "Unable to Read HashiCups Cafe" err)
      | inl cafes =>
          if Nat.eqb (length cafes) 0 then
            ret (Diagnostics_AddError resp
                   "Cafe Not Found" "No cafe found with the given ID")
          else
            match nth_error cafes 0 with
            | None => panic
            | Some cafe =>
                let state :=
                  set_ID (types.StringValue (strconv.Itoa (hashicups.ID cafe)))
                    state in
                let state :=
                  set_Address (types.StringValue (hashicups.Address cafe)) state in
                let state :=
                  set_Image (types.StringValue (hashicups.Image cafe)) state in
                let state :=
                  set_Name (types.StringValue (hashicups.Name cafe)) state in
                let state :=
                  set_Description
                    (types.StringValue (hashicups.Description cafe)) state in
                let (diags, resp) := State_Set resp state in
                ret (Diagnostics_Append resp diags)
            end
      end
  end.

Definition Update (r : cafeResource) (req : UpdateRequest) (resp : Response)
  : M W Response :=
  let (diags, plan) := Get (UpdateRequest_Plan req) in
  let resp := Diagnostics_Append resp diags in
  if diag.HasError (Diagnostics resp) then ret resp else
  match strconv.Atoi Quote (types.ValueString (ID plan)) with
  | inr err =>
      ret (Diagnostics_AddError resp
             "Error Converting Cafe ID"
             ("Could not convert cafe ID to integer: " ++ err))
  | inl cafeID =>
      let cafe :=
        {| hashicups.ID := cafeID;
           hashicups.Name := types.ValueString (Name plan);
           hashicups.Address := types.ValueString (Address plan);
           hashicups.Description := types.ValueString (Description plan);
           hashicups.Image := types.ValueString (Image plan) |} in
      res <- client_UpdateCafe (client r) (types.ValueString (ID plan)) [cafe] ;;
      match res with
      | inr err =>
          ret (Diagnostics_AddError resp
                 "Error Updating HashiCups Cafe"
                 ("Could not update cafe, unexpected error: " ++ err))
      | inl updatedCafe =>
          let plan :=
            set_ID (types.StringValue (strconv.Itoa (hashicups.ID updatedCafe)))
              plan in
          let plan :=
            set_Name (types.StringValue (hashicups.Name updatedCafe)) plan in
          let plan :=
            set_Address (types.StringValue (hashicups.Address updatedCafe)) plan in
          let plan :=
            set_Description
              (types.StringValue (hashicups.Description updatedCafe)) plan in
          let plan :=
            set_Image (types.StringValue (hashicups.Image updatedCafe)) plan in
          let (diags, resp) := State_Set resp plan in
          ret (Diagnostics_Append resp diags)
      end
  end.

Definition Delete (r : cafeResource) (req : DeleteRequest) (resp : Response)
  : M W Response :=
  let (diags, state) := Get (DeleteRequest_State req) in
  let resp := Diagnostics_Append resp diags in
  if diag.HasError (Diagnostics resp) then ret resp else
  match strconv.Atoi Quote (types.ValueString (ID state)) with
  | inr err =>
      ret (Diagnostics_AddError resp
             "Error Deleting HashiCups Cafe"
             ("Could not convert cafe ID to integer: " ++ err))
  | inl cafeID =>
      res <- client_DeleteCafe (client r) (strconv.Itoa cafeID) ;;
      match res with
      | Some err =>
          ret (Diagnostics_AddError resp
                 "Error Deleting HashiCups Cafe"
                 ("Could not delete cafe, unexpected error: " ++ err))
      | None => ret resp
      end
  end.

(** [Configure] changes the receiver and the response. *)
Definition Configure (r : cafeResource) (req : ConfigureRequest Client)
  (resp : ConfigureResponse) : cafeResource * ConfigureResponse :=
  match ProviderData req with
  | None => (r, resp)
  | Some (AnyClient client) => (mkResource client, resp)
  | Some (AnyOther dynType) =>
      (r,
       mkConfigureResponse
         (diag.AddError (ConfigureResponse_Diagnostics resp)
            "Unexpected Data Source Configure Type"
            ("Expected *hashicups.Client, got: " ++ dynType
             ++ ". Please report this issue to the provider developers.")))
  end.

End Resource.

Arguments Client : clear implicits.
Arguments cafeResource : clear implicits.

(** The schema the framework holds for the resource, and the [tfsdk] tags
    of [cafeResourceModel]. *)
Definition resource_schema : schema.Schema :=
  SchemaResponse_Schema (Schema (mkSchemaResponse (schema.mkSchema []))).

Definition tags : list string := ["id"; "name"; "address"; "description"; "image"].

(** The object [State.Set] builds from a model: five text values. *)
Definition encode (m : cafeResourceModel) : tfsdk.Object :=
  [("id", tfsdk.OfString (ID m));
   ("name", tfsdk.OfString (Name m));
   ("address", tfsdk.OfString (Address m));
   ("description", tfsdk.OfString (Description m));
   ("image", tfsdk.OfString (Image m))].

(** [Get(ctx, &target)] for a target of type [cafeResourceModel]: the
    diagnostics and the target afterwards (the zero model on failure). *)
Definition Get_into (detail : string) (o : tfsdk.Object)
  : diag.Diagnostics * cafeResourceModel :=
  match (if tfsdk.covered tags o then tfsdk.into_String "id" o else None),
        tfsdk.into_String "name" o, tfsdk.into_String "address" o,
        tfsdk.into_String "description" o, tfsdk.into_String "image" o with
  | Some id, Some name, Some address, Some description, Some image =>
      ([], mkModel id name address description image)
  | _, _, _, _, _ =>
      ([tfsdk.ValueConversionError detail],
       mkModel types.StringNull types.StringNull types.StringNull
         types.StringNull types.StringNull)
  end.

End StringDraft.

(** ** src/internal/provider/cafe_resource.go: the draft with an integer
    identifier *)

Module Int64Draft.

Record cafeResourceModel := mkModel
  { ID : types.Int64;
    Name : types.String;
    Address : types.String;
    Description : types.String;
    Image : types.String }.

Record cafeDataSourceModel := mkDataSourceModel
  { Cafe : list cafeResourceModel }.

Definition set_ID (v : types.Int64) (m : cafeResourceModel) :=
  mkModel v (Name m) (Address m) (Description m) (Image m).
Definition set_Name (v : types.String) (m : cafeResourceModel) :=
  mkModel (ID m) v (Address m) (Description m) (Image m).
Definition set_Address (v : types.String) (m : cafeResourceModel) :=
  mkModel (ID m) (Name m) v (Description m) (Image m).
Definition set_Description (v : types.String) (m : cafeResourceModel) :=
  mkModel (ID m) (Name m) (Address m) v (Image m).
Definition set_Image (v : types.String) (m : cafeResourceModel) :=
  mkModel (ID m) (Name m) (Address m) (Description m) v.

(** What [State.Set] is given in this draft: the resource model in [Create]
    and [Update], the list model in [Read]. *)
Inductive StateValue :=
| ResourceState (m : cafeResourceModel)
| DataSourceState (m : cafeDataSourceModel).

(** [resp.State] holds the object of the persisted state, or nothing. *)
Record Response := mkResponse
  { State : option tfsdk.Object;
    Diagnostics : diag.Diagnostics }.

Definition Diagnostics_Append (resp : Response) (ds : diag.Diagnostics) :=
  mkResponse (State resp) (diag.Append (Diagnostics resp) ds).

Definition Diagnostics_AddError (resp : Response) (summary detail : string) :=
  mkResponse (State resp) (diag.AddError (Diagnostics resp) summary detail).

Record CreateRequest := mkCreateRequest
  { CreateRequest_Plan : Source cafeResourceModel }.
Record ReadRequest := mkReadRequest
  { ReadRequest_State : Source cafeResourceModel }.
Record UpdateRequest := mkUpdateRequest
  { UpdateRequest_Plan : Source cafeResourceModel }.
Record DeleteRequest := mkDeleteRequest
  { DeleteRequest_State : Source cafeResourceModel }.

Definition Metadata (req : MetadataRequest) (resp : MetadataResponse)
  : MetadataResponse :=
  mkMetadataResponse (ProviderTypeName req ++ "_cafe").

(** [Schema] of this draft: five computed texts, the identifier keeping
    its prior value while unknown. *)
Definition Schema (resp : SchemaResponse) : SchemaResponse :=
  mkSchemaResponse
    (schema.mkSchema
       [("id", schema.mkStringAttribute false false true [schema.UseStateForUnknown]);
        ("name", schema.mkStringAttribute false false true []);
        ("address", schema.mkStringAttribute false false true []);
        ("description", schema.mkStringAttribute false false true []);
        ("image", schema.mkStringAttribute false false true [])]).

(** The schema the framework holds for the resource, and the [tfsdk] tags
    of [cafeResourceModel]. *)
Definition resource_schema : schema.Schema :=
  SchemaResponse_Schema (Schema (mkSchemaResponse (schema.mkSchema []))).

Definition tags : list string := ["id"; "name"; "address"; "description"; "image"].

(** The object the framework builds from the fields of a struct handed to
    [State.Set]: [cafeResourceModel] has an integer field tagged [id] and
    four text fields, [cafeDataSourceModel] one list field tagged [cafe]. *)
Definition encode_model (m : cafeResourceModel) : tfsdk.Object :=
  [("id", tfsdk.OfInt64 (ID m));
   ("name", tfsdk.OfString (Name m));
   ("address", tfsdk.OfString (Address m));
   ("description", tfsdk.OfString (Description m));
   ("image", tfsdk.OfString (Image m))].

Definition encode (v : StateValue) : tfsdk.Object :=
  match v with
  | ResourceState m => encode_model m
  | DataSourceState m =>
      [("cafe",
        tfsdk.OfList (map (fun item => tfsdk.OfObject (encode_model item)) (Cafe m)))]
  end.

(** [Get(ctx, &target)] for a target of type [cafeResourceModel]: the
    diagnostics and the target afterwards (the zero model on failure).  The
    field [ID] is a [types.Int64]. *)
Definition Get_into (detail : string) (o : tfsdk.Object)
  : diag.Diagnostics * cafeResourceModel :=
  match (if tfsdk.covered tags o then tfsdk.into_Int64 "id" o else None),
        tfsdk.into_String "name" o, tfsdk.into_String "address" o,
        tfsdk.into_String "description" o, tfsdk.into_String "image" o with
  | Some id, Some name, Some address, Some description, Some image =>
      ([], mkModel id name address description image)
  | _, _, _, _, _ =>
      ([tfsdk.ValueConversionError detail],
       mkModel types.Int64Null types.StringNull types.StringNull
         types.StringNull types.StringNull)
  end.

Section Resource.
Context {W : Type}.

(** The detail text of the framework's diagnostic for a value that
    [State.Set] refuses. *)
Variable SetDetail : StateValue -> string.

(** [resp.State.Set(ctx, value)]: when the object built from the value is
    one of the resource's schema it becomes the state; otherwise the state
    stays as it was and a "Value Conversion Error" is returned. *)
Definition State_Set (resp : Response) (v : StateValue)
  : diag.Diagnostics * Response :=
  if tfsdk.conforms resource_schema (encode v)
  then ([], mkResponse (Some (encode v)) (Diagnostics resp))
  else ([tfsdk.ValueConversionError (SetDetail v)], resp).

(** The methods of [*hashicups.Client] this draft calls; [GetCafe] returns
    one cafe here. *)
Record Client := mkClient
  { CreateCafe : list hashicups.Cafe -> W -> (hashicups.Cafe + error) * W;
    GetCafe : string -> W -> (hashicups.Cafe + error) * W;
    GetCafes : W -> (list hashicups.Cafe + error) * W;
    UpdateCafe :
      string -> list hashicups.Cafe -> W -> (hashicups.Cafe + error) * W;
    DeleteCafe : string -> W -> option error * W }.

Record cafeResource := mkResource { client : option Client }.

Definition NewCafeResource : cafeResource := mkResource None.

Definition client_CreateCafe (c : option Client) (cafes : list hashicups.Cafe)
  : M W (hashicups.Cafe + error) :=
  match c with
  | Some c => invoke (hashicups.CallCreateCafe cafes) (CreateCafe c cafes)
  | None => panic
  end.

Definition client_GetCafe (c : option Client) (cafeID : string)
  : M W (hashicups.Cafe + error) :=
  match c with
  | Some c => invoke (hashicups.CallGetCafe cafeID) (GetCafe c cafeID)
  | None => panic
  end.

Definition client_GetCafes (c : option Client)
  : M W (list hashicups.Cafe + error) :=
  match c with
  | Some c => invoke hashicups.CallGetCafes (GetCafes c)
  | None => panic
  end.

Definition client_UpdateCafe (c : option Client) (cafeID : string)
  (cafes : list hashicups.Cafe) : M W (hashicups.Cafe + error) :=
  match c with
  | Some c =>
      invoke (hashicups.CallUpdateCafe cafeID cafes) (UpdateCafe c cafeID cafes)
  | None => panic
  end.

Definition client_DeleteCafe (c : option Client) (cafeID : string)
  : M W (option error) :=
  match c with
  | Some c => invoke (hashicups.CallDeleteCafe cafeID) (DeleteCafe c cafeID)
  | None => panic
  end.

Definition Create (r : cafeResource) (req : CreateRequest) (resp : Response)
  : M W Response :=
  let (diags, plan) := Get (CreateRequest_Plan req) in
  let resp := Diagnostics_Append resp diags in
  if diag.HasError (Diagnostics resp) then ret resp else
  let items : list hashicups.Cafe := [] in
  res <- client_CreateCafe (client r) items ;;
  match res with
  | inr err =>
      ret (Diagnostics_AddError resp
             "Error creating cafe"
             ("Could not create cafe, unexpected error: " ++ err))
  | inl cafe =>
      let plan := set_ID (types.Int64Value (hashicups.ID cafe)) plan in
      let plan := set_Name (types.StringValue (hashicups.Name cafe)) plan in
      let plan := set_Address (types.StringValue (hashicups.Address cafe)) plan in
      let plan :=
        set_Description (types.StringValue (hashicups.Description cafe)) plan in
      let plan := set_Image (types.StringValue (hashicups.Image cafe)) plan in
      let (diags, resp) := State_Set resp (ResourceState plan) in
      ret (Diagnostics_Append resp diags)
  end.

(** The model built for one cafe in the loop of [Read]. *)
Definition cafeState (cafe : hashicups.Cafe) : cafeResourceModel :=
  {| ID := types.Int64Value (hashicups.ID cafe);
     Name := types.StringValue (hashicups.Name cafe);
     Address := types.StringValue (hashicups.Address cafe);
     Description := types.StringValue (hashicups.Description cafe);
     Image := types.StringValue (hashicups.Image cafe) |}.

Definition Read (d : cafeResource) (req : ReadRequest) (resp : Response)
  : M W Response :=
  let state := mkDataSourceModel [] in
  res <- client_GetCafes (client d) ;;
  match res with
  | inr err =>
      ret (Diagnostics_AddError resp "Unable to Read HashiCups Cafes" err)
  | inl cafes =>
      let state :=
        fold_left
          (fun state cafe => mkDataSourceModel (Cafe state ++ [cafeState cafe])%list)
          cafes state in
      let (diags, resp) := State_Set resp (DataSourceState state) in
      ret (Diagnostics_Append resp diags)
  end.

Definition Update (r : cafeResource) (req : UpdateRequest) (resp : Response)
  : M W Response :=
  let (diags, plan) := Get (UpdateRequest_Plan req) in
  let resp := Diagnostics_Append resp diags in
  if diag.HasError (Diagnostics resp) then ret resp else
  let hashicupsItems : list hashicups.Cafe := [] in
  res <- client_UpdateCafe (client r) (types.Int64_String (ID plan))
           hashicupsItems ;;
  match res with
  | inr err =>
      ret (Diagnostics_AddError resp
             "Error Updating HashiCups Cafe"
             ("Could not update cafe, unexpected error: " ++ err))
  | inl _ =>
      res <- client_GetCafe (client r) (types.Int64_String (ID plan)) ;;
      match res with
      | inr err =>
          ret (Diagnostics_AddError resp
                 "Error Reading HashiCups Cafe"
                 ("Could not read HashiCups ocaferder ID "
                  ++ types.Int64_String (ID plan) ++ ": " ++ err))
      | inl cafe =>
          let plan := set_Name (types.StringValue (hashicups.Name cafe)) plan in
          let plan :=
            set_Address (types.StringValue (hashicups.Address cafe)) plan in
          let plan :=
            set_Description
              (types.StringValue (hashicups.Description cafe)) plan in
          let plan := set_Image (types.StringValue (hashicups.Image cafe)) plan in
          let (diags, resp) := State_Set resp (ResourceState plan) in
          ret (Diagnostics_Append resp diags)
      end
  end.

Definition Delete (r : cafeResource) (req : DeleteRequest) (resp : Response)
  : M W Response :=
  let (diags, state) := Get (DeleteRequest_State req) in
  let resp := Diagnostics_Append resp diags in
  if diag.HasError (Diagnostics resp) then ret resp else
  res <- client_DeleteCafe (client r) (types.Int64_String (ID state)) ;;
  match res with
  | Some err =>
      ret (Diagnostics_AddError resp
             "Error Deleting HashiCups Cafe"
             ("Could not delete cafe, unexpected error: " ++ err))
  | None => ret resp
  end.

(** [Configure] changes the receiver and the response. *)
Definition Configure (r : cafeResource) (req : ConfigureRequest Client)
  (resp : ConfigureResponse) : cafeResource * ConfigureResponse :=
  match ProviderData req with
  | None => (r, resp)
  | Some (AnyClient client) => (mkResource client, resp)
  | Some (AnyOther dynType) =>
      (r,
       mkConfigureResponse
         (diag.AddError (ConfigureResponse_Diagnostics resp)
            "Unexpected Data Source Configure Type"
            ("Expected *hashicups.Client, got: " ++ dynType
             ++ ". Please report this issue to the provider developers.")))
  end.

End Resource.

Arguments Client : clear implicits.
Arguments cafeResource : clear implicits.

End Int64Draft.

(** ** Scenarios: stub clients and sample inputs *)

Module Scenario.

(** A remote stub without state of its own: each method answers as a
    function of its request. *)
Definition stringClient
  (created : list hashicups.Cafe -> hashicups.Cafe + error)
  (found : string -> list hashicups.Cafe + error)
  (updated : string -> list hashicups.Cafe -> hashicups.Cafe + error)
  (deleted : string -> option error) : StringDraft.Client unit :=
  {| StringDraft.CreateCafe := fun cafes w => (created cafes, w);
     StringDraft.GetCafe := fun cafeID w => (found cafeID, w);
     StringDraft.UpdateCafe := fun cafeID cafes w => (updated cafeID cafes, w);
     StringDraft.DeleteCafe := fun cafeID w => (deleted cafeID, w) |}.

Definition int64Client
  (created : list hashicups.Cafe -> hashicups.Cafe + error)
  (found : string -> hashicups.Cafe + error)
  (listed : list hashicups.Cafe + error)
  (updated : string -> list hashicups.Cafe -> hashicups.Cafe + error)
  (deleted : string -> option error) : Int64Draft.Client unit :=
  {| Int64Draft.CreateCafe := fun cafes w => (created cafes, w);
     Int64Draft.GetCafe := fun cafeID w => (found cafeID, w);
     Int64Draft.GetCafes := fun w => (listed, w);
     Int64Draft.UpdateCafe := fun cafeID cafes w => (updated cafeID cafes, w);
     Int64Draft.DeleteCafe := fun cafeID w => (deleted cafeID, w) |}.

(** The create operation of a stub that assigns identifier 42 and echoes
    every field submitted to it (nothing is echoed when nothing is
    submitted). *)
Definition echo42 (cafes : list hashicups.Cafe) : hashicups.Cafe + error :=
  match cafes with
  | cafe :: _ =>
      inl (hashicups.mkCafe 42 (hashicups.Name cafe) (hashicups.Address cafe)
             (hashicups.Description cafe) (hashicups.Image cafe))
  | [] => inl (hashicups.mkCafe 42 EmptyString EmptyString EmptyString EmptyString)
  end.

Definition down : error := "connection refused".

Definition sampleCafe : hashicups.Cafe :=
  hashicups.mkCafe 42 "Sample Cafe" "123 Coffee St" "A cozy place"
    "http://example.com/image.jpg".

Definition otherCafe : hashicups.Cafe :=
  hashicups.mkCafe 7 "Corner Cafe" "7 Tea Rd" "Around the corner"
    "http://example.com/corner.jpg".

(** The update operation of a remote that answers with the identifier only. *)
Definition partialUpdate (cafeID : string) (cafes : list hashicups.Cafe)
  : hashicups.Cafe + error :=
  inl (hashicups.mkCafe 42 EmptyString EmptyString EmptyString EmptyString).

Definition echoString : StringDraft.Client unit :=
  stringClient echo42 (fun _ => inl [sampleCafe]) partialUpdate (fun _ => None).

Definition echoInt64 : Int64Draft.Client unit :=
  int64Client echo42 (fun _ => inl sampleCafe) (inl []) partialUpdate
    (fun _ => None).

Definition failingString : StringDraft.Client unit :=
  stringClient (fun _ => inr down) (fun _ => inr down) (fun _ _ => inr down)
    (fun _ => Some down).

Definition twoCafesString : StringDraft.Client unit :=
  stringClient echo42 (fun _ => inl [sampleCafe; otherCafe]) partialUpdate
    (fun _ => None).

Definition twoCafesInt64 : Int64Draft.Client unit :=
  int64Client echo42 (fun _ => inl sampleCafe) (inl [sampleCafe; otherCafe])
    partialUpdate (fun _ => None).

(** The plan of the example configuration: the identifier is not known
    before the resource exists. *)
Definition samplePlanString : StringDraft.cafeResourceModel :=
  StringDraft.mkModel types.StringUnknown
    (types.StringValue "Sample Cafe") (types.StringValue "123 Coffee St")
    (types.StringValue "A cozy place")
    (types.StringValue "http://example.com/image.jpg").

(** The state of the sample cafe once created, and a changed plan for it. *)
Definition sampleStateString : StringDraft.cafeResourceModel :=
  StringDraft.set_ID (types.StringValue "42") samplePlanString.

Definition renamedPlanString : StringDraft.cafeResourceModel :=
  StringDraft.set_Name (types.StringValue "Renamed Cafe") sampleStateString.

(** A state whose identifier is not a decimal integer. *)
Definition corruptStateString : StringDraft.cafeResourceModel :=
  StringDraft.set_ID (types.StringValue "cafe-42") samplePlanString.

Definition freshString : StringDraft.Response := StringDraft.mkResponse None [].
Definition freshInt64 : Int64Draft.Response := Int64Draft.mkResponse None [].

Definition start : Env unit := mkEnv tt [].

(** [Quote] for the texts of the scenarios, none of which needs escaping. *)
Definition quote (s : string) : string :=
  String (ascii_of_nat 34) (s ++ String (ascii_of_nat 34) EmptyString).

(** The sample cafe after its name was changed, a remote that answers an
    update with the identifier only and a query with the changed cafe, and
    the responses that hold the state before the update. *)
Definition renamedCafe : hashicups.Cafe :=
  hashicups.mkCafe 42 "Renamed Cafe" "123 Coffee St" "A cozy place"
    "http://example.com/image.jpg".

Definition partialString : StringDraft.Client unit :=
  stringClient echo42 (fun _ => inl [renamedCafe]) partialUpdate (fun _ => None).

Definition partialInt64 : Int64Draft.Client unit :=
  int64Client echo42 (fun _ => inl renamedCafe) (inl [renamedCafe])
    partialUpdate (fun _ => None).

(** A remote that knows no cafe. *)
Definition unknownString : StringDraft.Client unit :=
  stringClient echo42 (fun _ => inl []) partialUpdate (fun _ => None).

Definition priorString : StringDraft.Response :=
  StringDraft.mkResponse (Some sampleStateString) [].

(** The plan and the state of the sample cafe as objects of the schema,
    and the response of the integer draft that holds that state. *)
Definition samplePlanObject : tfsdk.Object := StringDraft.encode samplePlanString.
Definition sampleStateObject : tfsdk.Object := StringDraft.encode sampleStateString.
Definition renamedPlanObject : tfsdk.Object := StringDraft.encode renamedPlanString.

Definition priorInt64 : Int64Draft.Response :=
  Int64Draft.mkResponse (Some sampleStateObject) [].

Definition configuredString (c : StringDraft.Client unit)
  : StringDraft.cafeResource unit :=
  StringDraft.mkResource (Some c).

Definition configuredInt64 (c : Int64Draft.Client unit)
  : Int64Draft.cafeResource unit :=
  Int64Draft.mkResource (Some c).

(** Requests of the text draft whose plan or state decodes to the given
    model without a diagnostic. *)
Definition createString (plan : StringDraft.cafeResourceModel) :=
  StringDraft.mkCreateRequest (mkSource ([], plan)).
Definition readString (state : StringDraft.cafeResourceModel) :=
  StringDraft.mkReadRequest (mkSource ([], state)).
Definition updateString (plan : StringDraft.cafeResourceModel) :=
  StringDraft.mkUpdateRequest (mkSource ([], plan)).

(** Requests of the integer draft: what decoding the given object into its
    model yields. *)
Definition createInt64 (detail : string) (plan : tfsdk.Object) :=
  Int64Draft.mkCreateRequest (mkSource (Int64Draft.Get_into detail plan)).
Definition readInt64 (detail : string) (state : tfsdk.Object) :=
  Int64Draft.mkReadRequest (mkSource (Int64Draft.Get_into detail state)).
Definition updateInt64 (detail : string) (plan : tfsdk.Object) :=
  Int64Draft.mkUpdateRequest (mkSource (Int64Draft.Get_into detail plan)).
Definition deleteInt64 (detail : string) (state : tfsdk.Object) :=
  Int64Draft.mkDeleteRequest (mkSource (Int64Draft.Get_into detail state)).

(** The sample state with its identifier written with a sign and leading
    zeros. *)
Definition signedStateString : StringDraft.cafeResourceModel :=
  StringDraft.set_ID (types.StringValue "+0042") sampleStateString.

Definition deleteString (state : StringDraft.cafeResourceModel) :=
  StringDraft.mkDeleteRequest (mkSource ([], state)).

(** Detail texts for the scenarios. *)
Definition getDetail : string := "cannot build the value of field ID".
Definition setDetail (v : Int64Draft.StateValue) : string :=
  "cannot convert the struct into an object of the schema".

(** A decoding that failed. *)
Definition conversionFailed : diag.Diagnostics :=
  [diag.NewErrorDiagnostic "Value Conversion Error"
     "An unexpected error was encountered trying to build a value."].

(** The resource block of src/examples/cafes/main.tf: its type and the
    attributes it sets. *)
Definition main_tf_type : string := "inpyu_cafe".
Definition main_tf_attributes : list (string * string) :=
  [("name", "Sample Cafe");
   ("address", "123 Coffee St");
   ("description", "A cozy place to enjoy coffee and pastries");
   ("image", "http://example.com/image.jpg")].

End Scenario.

(** * Properties *)

(** ** Diagnostics *)

Section DiagFacts.
Import diag.

Lemma Severity_eqb_eq a b : Severity_eqb a b = true <-> a = b.
Proof. destruct a, b; simpl; split; congruence. Qed.

Lemma Equal_eq a b : Equal a b = true <-> a = b.
Proof.
  destruct a as [sa ma da], b as [sb mb db]; unfold Equal; simpl.
  rewrite !andb_true_iff, Severity_eqb_eq, !String.eqb_eq.
  split; [intros [[-> ->] ->]; reflexivity | intros H; injection H; auto].
Qed.

Lemma Contains_In ds d : Contains ds d = true <-> In d ds.
Proof.
  unfold Contains. rewrite existsb_exists. split.
  - intros [x [Hin Heq]]. apply Equal_eq in Heq. now subst.
  - intros Hin. exists d. split; [assumption | now apply Equal_eq].
Qed.

Lemma HasError_In ds :
  HasError ds = true <-> exists d, In d ds /\ severity d = SeverityError.
Proof.
  unfold HasError. rewrite existsb_exists.
  split; intros [d [Hin Hs]]; exists d; split; auto; now apply Severity_eqb_eq.
Qed.

Lemma In_Append1 ds d x : In x (Append1 ds d) <-> In x ds \/ x = d.
Proof.
  unfold Append1. destruct (Contains ds d) eqn:Hc.
  - apply Contains_In in Hc. split; [auto | intros [H | ->]; assumption].
  - rewrite in_app_iff. simpl. intuition congruence.
Qed.

Lemma In_Append ds more x : In x (Append ds more) <-> In x ds \/ In x more.
Proof.
  unfold Append. revert ds. induction more as [| d more IH]; intros ds; simpl.
  - tauto.
  - rewrite IH, In_Append1. intuition congruence.
Qed.

Lemma HasError_Append ds more :
  HasError (Append ds more) = HasError ds || HasError more.
Proof.
  apply eq_true_iff_eq. rewrite orb_true_iff, !HasError_In. split.
  - intros [d [Hin Hs]]. apply In_Append in Hin. destruct Hin; eauto.
  - intros [[d [Hin Hs]] | [d [Hin Hs]]]; exists d; rewrite In_Append; auto.
Qed.

Lemma In_AddError ds summary detail :
  In (NewErrorDiagnostic summary detail) (AddError ds summary detail).
Proof. unfold AddError. rewrite In_Append. right. now left. Qed.

Lemma HasError_AddError ds summary detail :
  HasError (AddError ds summary detail) = true.
Proof.
  apply HasError_In. exists (NewErrorDiagnostic summary detail).
  split; [apply In_AddError | reflexivity].
Qed.

End DiagFacts.

(** ** [strconv]: [Itoa] is never empty and [Atoi] reads it back *)

Example Itoa_examples :
  strconv.Itoa 42 = "42" /\ strconv.Itoa (-907) = "-907" /\ strconv.Itoa 0 = "0"
  /\ strconv.Itoa strconv.maxInt64 = "9223372036854775807".
Proof. repeat split; reflexivity. Qed.

Example parseInt_examples :
  strconv.parseInt "+0042" = inl 42
  /\ strconv.parseInt "-9223372036854775808" = inl (-9223372036854775808)
  /\ strconv.parseInt "9223372036854775808" = inr strconv.ErrRange
  /\ strconv.parseInt "4x" = inr strconv.ErrSyntax
  /\ strconv.parseInt "-" = inr strconv.ErrSyntax
  /\ strconv.parseInt EmptyString = inr strconv.ErrSyntax.
Proof. repeat split; reflexivity. Qed.

Section StrconvFacts.
Import strconv.




Lemma digit_value d :
  0 <= d <= 9 -> Z.of_N (N_of_ascii (digit d)) - 48 = d.
Proof.
  intros Hd. unfold digit. rewrite N_ascii_embedding by lia. lia.
Qed.

Lemma parseDigits_digit d rest n :
  0 <= d <= 9 -> n * 10 + d <= maxUint64 ->
  parseDigits (String (digit d) rest) n = parseDigits rest (n * 10 + d).
Proof.
  intros Hd Hn. cbn [parseDigits]. rewrite digit_value by assumption.
  replace (0 <=? d) with true by (symmetry; apply Z.leb_le; lia).
  replace (d <=? 9) with true by (symmetry; apply Z.leb_le; lia).
  cbn [andb].
  replace (n * 10 + d >? maxUint64) with false; [reflexivity |].
  symmetry. rewrite Z.gtb_ltb. apply Z.ltb_ge. assumption.
Qed.

Lemma parseDigits_formatBits fuel : forall n acc,
  0 <= n <= maxUint64 -> n < 2 ^ Z.of_nat fuel ->
  parseDigits (formatBits fuel n acc) 0 = parseDigits acc n.
Proof.
  induction fuel as [| fuel IH]; intros n acc Hn Hfuel.
  - simpl in Hfuel. replace n with 0 by lia. reflexivity.
  - cbn [formatBits]. destruct (n <? 10) eqn:Hlt.
    + apply Z.ltb_lt in Hlt. rewrite parseDigits_digit by lia. reflexivity.
    + apply Z.ltb_ge in Hlt.
      assert (Hdiv : 0 <= n / 10 <= n) by
        (split; [apply Z.div_pos; lia | apply Z.div_le_upper_bound; lia]).
      assert (Hmod : 0 <= n mod 10 < 10) by (apply Z.mod_pos_bound; lia).
      rewrite IH.
      * rewrite parseDigits_digit.
        -- f_equal. pose proof (Z.div_mod n 10). lia.
        -- lia.
        -- pose proof (Z.div_mod n 10). lia.
      * lia.
      * rewrite Nat2Z.inj_succ, Z.pow_succ_r in Hfuel by lia.
        apply Z.div_lt_upper_bound; lia.
Qed.

Lemma formatUnsigned_fuel n :
  0 <= n -> n < 2 ^ Z.of_nat (S (Z.to_nat (Z.log2 n))).
Proof.
  intros Hn. rewrite Nat2Z.inj_succ, Z2Nat.id by apply Z.log2_nonneg.
  destruct (Z.eq_dec n 0) as [-> | Hpos]; [reflexivity |].
  apply Z.log2_spec. lia.
Qed.

Lemma parseDigits_formatUnsigned n :
  0 <= n <= maxUint64 -> parseDigits (formatUnsigned n) 0 = inl n.
Proof.
  intros Hn. unfold formatUnsigned.
  rewrite parseDigits_formatBits; [reflexivity | assumption |].
  apply formatUnsigned_fuel. lia.
Qed.

Lemma formatBits_starts fuel : forall n acc,
  0 <= n -> starts_with_digit acc -> starts_with_digit (formatBits fuel n acc).
Proof.
  induction fuel as [| fuel IH]; intros n acc Hn Hacc; cbn [formatBits].
  - assumption.
  - destruct (n <? 10) eqn:Hlt.
    + apply Z.ltb_lt in Hlt. exists n, acc. split; [lia | reflexivity].
    + apply IH; [apply Z.div_pos; lia |].
      exists (n mod 10), acc. split; [| reflexivity].
      pose proof (Z.mod_pos_bound n 10). lia.
Qed.

Lemma formatUnsigned_starts n : 0 <= n -> starts_with_digit (formatUnsigned n).
Proof.
  intros Hn. unfold formatUnsigned. cbn [formatBits].
  destruct (n <? 10) eqn:Hlt.
  - apply Z.ltb_lt in Hlt. exists n, EmptyString. split; [lia | reflexivity].
  - apply formatBits_starts; [apply Z.div_pos; lia |].
    exists (n mod 10), EmptyString. split; [| reflexivity].
    pose proof (Z.mod_pos_bound n 10). lia.
Qed.

Lemma parseInt_unsigned c rest :
  c <> "+"%char -> c <> "-"%char ->
  parseInt (String c rest) =
  match parseUnsigned (String c rest) with
  | inl n => if n >? maxInt64 then inr ErrRange else inl n
  | inr e => inr e
  end.
Proof.
  intros Hplus Hminus.
  destruct c as [[] [] [] [] [] [] [] []]; try reflexivity; congruence.
Qed.

Lemma digit_not_sign d :
  0 <= d <= 9 -> digit d <> "+"%char /\ digit d <> "-"%char.
Proof.
  intros Hd. pose proof (digit_value d Hd) as Hv.
  split; intros Heq; rewrite Heq in Hv; cbn in Hv; lia.
Qed.

Lemma parseInt_Itoa z : is_int z -> parseInt (Itoa z) = inl z.
Proof.
  unfold is_int, maxInt64. intros Hz. unfold Itoa.
  destruct (z <? 0) eqn:Hneg.
  - apply Z.ltb_lt in Hneg. cbn [parseInt].
    destruct (formatUnsigned_starts (- z)) as [d [rest [Hd Hs]]]; [lia |].
    unfold parseUnsigned. rewrite Hs, <- Hs.
    rewrite parseDigits_formatUnsigned by (unfold maxUint64; lia).
    replace (- z >? maxInt64 + 1) with false.
    + f_equal. lia.
    + symmetry. rewrite Z.gtb_ltb. apply Z.ltb_ge. unfold maxInt64. lia.
  - apply Z.ltb_ge in Hneg.
    destruct (formatUnsigned_starts z Hneg) as [d [rest [Hd Hs]]].
    destruct (digit_not_sign d Hd) as [Hplus Hminus].
    rewrite Hs, parseInt_unsigned by assumption. unfold parseUnsigned.
    rewrite <- Hs, parseDigits_formatUnsigned by (unfold maxUint64; lia).
    replace (z >? maxInt64) with false; [reflexivity |].
    symmetry. rewrite Z.gtb_ltb. apply Z.ltb_ge. unfold maxInt64. lia.
Qed.

Lemma Atoi_Itoa Quote z : is_int z -> Atoi Quote (Itoa z) = inl z.
Proof. intros Hz. unfold Atoi. now rewrite parseInt_Itoa. Qed.

End StrconvFacts.

(** ** The framework's decoding and encoding *)

Section TfsdkFacts.
Import tfsdk.

Lemma lookup_In name (o : Object) v : lookup name o = Some v -> In (name, v) o.
Proof.
  induction o as [| [key w] o IH]; cbn [lookup]; [discriminate |].
  destruct (String.eqb key name) eqn:Hkey.
  - intros [= ->]. apply String.eqb_eq in Hkey. subst key. now left.
  - intros Hrest. right. now apply IH.
Qed.

Lemma schema_lookup_In name attrs a :
  schema.lookup name attrs = Some a -> In (name, a) attrs.
Proof.
  induction attrs as [| [key b] attrs IH]; cbn [schema.lookup]; [discriminate |].
  destruct (String.eqb key name) eqn:Hkey.
  - intros [= ->]. apply String.eqb_eq in Hkey. subst key. now left.
  - intros Hrest. right. now apply IH.
Qed.

(** In an object of a schema every declared attribute has a text value. *)
Lemma conforms_text s o name a :
  conforms s o = true ->
  schema.lookup name (schema.Attributes s) = Some a ->
  exists v, lookup name o = Some (OfString v).
Proof.
  unfold conforms. rewrite andb_true_iff, !forallb_forall.
  intros [Hentries Hattrs] Hdeclared.
  pose proof (Hattrs _ (schema_lookup_In _ _ _ Hdeclared)) as Hentry.
  cbn [fst] in Hentry.
  destruct (lookup name o) as [v |] eqn:Hlook; [| discriminate].
  pose proof (Hentries _ (lookup_In _ _ _ Hlook)) as Htext.
  cbn [fst snd] in Htext. rewrite Hdeclared in Htext.
  destruct v; try discriminate. now eexists.
Qed.

(** Decoding an object of the integer draft's schema into its model fails:
    the field [ID] is an integer and the attribute [id] a text. *)
Lemma Int64Draft_Get_refused detail o :
  conforms Int64Draft.resource_schema o = true ->
  Int64Draft.Get_into detail o
  = ([ValueConversionError detail],
     Int64Draft.mkModel types.Int64Null types.StringNull types.StringNull
       types.StringNull types.StringNull).
Proof.
  intros Hfits.
  destruct (conforms_text _ _ "id"
              (schema.mkStringAttribute false false true [schema.UseStateForUnknown])
              Hfits eq_refl) as [v Hid].
  unfold Int64Draft.Get_into, into_Int64. rewrite Hid.
  destruct (covered Int64Draft.tags o); reflexivity.
Qed.

(** No value the integer draft hands to [State.Set] is an object of its
    schema: the model has an integer where the schema has a text, and the
    list model has the one field [cafe], which the schema does not declare. *)
Lemma Int64Draft_Set_refused v :
  conforms Int64Draft.resource_schema (Int64Draft.encode v) = false.
Proof. destruct v; reflexivity. Qed.

Lemma StringDraft_covered o :
  conforms StringDraft.resource_schema o = true ->
  covered StringDraft.tags o = true.
Proof.
  unfold conforms, covered. rewrite andb_true_iff, !forallb_forall.
  intros [Hentries _] entry Hin. specialize (Hentries entry Hin).
  unfold StringDraft.resource_schema, StringDraft.Schema, StringDraft.tags in *.
  cbn [SchemaResponse_Schema schema.Attributes schema.lookup existsb fst] in *.
  rewrite (String.eqb_sym (fst entry) "id"), (String.eqb_sym (fst entry) "name"),
    (String.eqb_sym (fst entry) "address"),
    (String.eqb_sym (fst entry) "description"),
    (String.eqb_sym (fst entry) "image").
  revert Hentries.
  repeat match goal with
         | |- context [String.eqb ?k (fst entry)] =>
             destruct (String.eqb k (fst entry)); [intros _; reflexivity |]
         end.
  intros Hentries. discriminate Hentries.
Qed.

End TfsdkFacts.

(** ** Create *)

(** Unfolds one handler call down to the client's answers. *)
Ltac run_handler :=
  cbv beta delta
    [StringDraft.Create StringDraft.Read StringDraft.Update StringDraft.Delete
     Int64Draft.Create Int64Draft.Read Int64Draft.Update Int64Draft.Delete
     StringDraft.client_CreateCafe StringDraft.client_GetCafe
     StringDraft.client_UpdateCafe StringDraft.client_DeleteCafe
     Int64Draft.client_CreateCafe Int64Draft.client_GetCafe
     Int64Draft.client_GetCafes Int64Draft.client_UpdateCafe
     Int64Draft.client_DeleteCafe bind ret invoke panic].

Lemma Create_string_run W (c : StringDraft.Client W) r req resp e :
  StringDraft.client r = Some c ->
  diag.HasError (StringDraft.Diagnostics resp) = false ->
  diag.HasError (fst (Get (StringDraft.CreateRequest_Plan req))) = false ->
  let diags := fst (Get (StringDraft.CreateRequest_Plan req)) in
  let plan := snd (Get (StringDraft.CreateRequest_Plan req)) in
  let request :=
    [hashicups.mkCafe 0
       (types.ValueString (StringDraft.Name plan))
       (types.ValueString (StringDraft.Address plan))
       (types.ValueString (StringDraft.Description plan))
       (types.ValueString (StringDraft.Image plan))] in
  let seen := diag.Append (StringDraft.Diagnostics resp) diags in
  StringDraft.Create r req resp e =
  match StringDraft.CreateCafe c request (world e) with
  | (inl created, w') =>
      (Done (StringDraft.mkResponse
               (Some (StringDraft.mkModel
                        (types.StringValue (strconv.Itoa (hashicups.ID created)))
                        (types.StringValue (hashicups.Name created))
                        (types.StringValue (hashicups.Address created))
                        (types.StringValue (hashicups.Description created))
                        (types.StringValue (hashicups.Image created))))
               seen),
       mkEnv w' (calls e ++ [hashicups.CallCreateCafe request])%list)
  | (inr err, w') =>
      (Done (StringDraft.mkResponse (StringDraft.State resp)
               (diag.AddError seen "Error creating cafe"
                  ("Could not create cafe, unexpected error: " ++ err))),
       mkEnv w' (calls e ++ [hashicups.CallCreateCafe request])%list)
  end.
Proof.
  intros Hc Hresp Hplan diags plan request seen.
  subst diags plan request seen. run_handler.
  destruct (Get (StringDraft.CreateRequest_Plan req)) as [diags plan].
  cbn [fst snd] in *. cbn [StringDraft.Diagnostics StringDraft.Diagnostics_Append].
  rewrite HasError_Append, Hresp, Hplan, Hc. cbn [orb].
  match goal with
  | |- context [StringDraft.CreateCafe c ?q (world e)] =>
      destruct (StringDraft.CreateCafe c q (world e)) as [[created | err] w']
  end; reflexivity.
Qed.



(** X1.  In the text draft the one request of [Create] carries the four
    attributes of the plan and a zero identifier, whatever the client
    answers. *)
Lemma Create_string_request W (c : StringDraft.Client W) r req resp e :
  StringDraft.client r = Some c ->
  diag.HasError (StringDraft.Diagnostics resp) = false ->
  diag.HasError (fst (Get (StringDraft.CreateRequest_Plan req))) = false ->
  let plan := snd (Get (StringDraft.CreateRequest_Plan req)) in
  calls (snd (StringDraft.Create r req resp e))
  = (calls e
     ++ [hashicups.CallCreateCafe
           [hashicups.mkCafe 0
              (types.ValueString (StringDraft.Name plan))
              (types.ValueString (StringDraft.Address plan))
              (types.ValueString (StringDraft.Description plan))
              (types.ValueString (StringDraft.Image plan))]])%list.
Proof.
  intros Hc Hresp Hplan plan.
  rewrite (Create_string_run W c r req resp e Hc Hresp Hplan). cbv zeta.
  match goal with
  | |- context [StringDraft.CreateCafe c ?q (world e)] =>
      destruct (StringDraft.CreateCafe c q (world e)) as [[created | err] w']
  end; reflexivity.
Qed.

Lemma Create_string_request_witness :
  calls (snd (StringDraft.Create (Scenario.configuredString Scenario.failingString)
                (Scenario.createString Scenario.samplePlanString)
                Scenario.freshString Scenario.start))
  = [hashicups.CallCreateCafe
       [hashicups.mkCafe 0 "Sample Cafe" "123 Coffee St" "A cozy place"
          "http://example.com/image.jpg"]].
Proof.
  exact (Create_string_request unit Scenario.failingString
           (Scenario.configuredString Scenario.failingString)
           (Scenario.createString Scenario.samplePlanString)
           Scenario.freshString Scenario.start eq_refl eq_refl eq_refl).
Defined.

(** C2, at cafe_resource.go.  [Create] of the integer draft sends no
    creation request, for any plan of the resource.  A plan is an object of
    the schema, whose [id] is a text; decoding it into the model, whose
    [ID] is an integer, fails, and [Create] returns with that "Value
    Conversion Error": nothing is sent and the state is as it was, whatever
    the resource and the response. *)
Theorem Create_int64_sends_nothing W SetDetail detail
  (r : Int64Draft.cafeResource W) resp e plan :
  tfsdk.conforms Int64Draft.resource_schema plan = true ->
  Int64Draft.Create SetDetail r
    (Int64Draft.mkCreateRequest (mkSource (Int64Draft.Get_into detail plan)))
    resp e
  = (Done (Int64Draft.mkResponse (Int64Draft.State resp)
             (diag.Append (Int64Draft.Diagnostics resp)
                [tfsdk.ValueConversionError detail])),
     e).
Proof.
  intros Hfits. run_handler.
  cbn [Get Int64Draft.CreateRequest_Plan].
  rewrite (Int64Draft_Get_refused detail plan Hfits).
  cbn [Int64Draft.Diagnostics Int64Draft.Diagnostics_Append].
  rewrite HasError_Append. cbn [diag.HasError existsb].
  rewrite orb_true_r. reflexivity.
Qed.

Lemma Create_int64_sends_nothing_witness :
  Int64Draft.Create Scenario.setDetail
    (Scenario.configuredInt64 Scenario.echoInt64)
    (Scenario.createInt64 Scenario.getDetail Scenario.samplePlanObject)
    Scenario.freshInt64 Scenario.start
  = (Done (Int64Draft.mkResponse None
             [tfsdk.ValueConversionError Scenario.getDetail]),
     Scenario.start).
Proof.
  exact (Create_int64_sends_nothing unit Scenario.setDetail Scenario.getDetail
           (Scenario.configuredInt64 Scenario.echoInt64)
           Scenario.freshInt64 Scenario.start Scenario.samplePlanObject
           eq_refl).
Defined.

(** X5.  The scenario of the example configuration in the text draft: the stub
    assigns 42 and echoes the submitted cafe, and the persisted model holds
    the identifier and the four attributes of the plan. *)
Lemma Create_string_scenario :
  StringDraft.Create (Scenario.configuredString Scenario.echoString)
    (Scenario.createString Scenario.samplePlanString)
    Scenario.freshString Scenario.start
  = (Done (StringDraft.mkResponse
             (Some (StringDraft.mkModel
                      (types.StringValue "42")
                      (types.StringValue "Sample Cafe")
                      (types.StringValue "123 Coffee St")
                      (types.StringValue "A cozy place")
                      (types.StringValue "http://example.com/image.jpg")))
             []),
     mkEnv tt
       [hashicups.CallCreateCafe
          [hashicups.mkCafe 0 "Sample Cafe" "123 Coffee St" "A cozy place"
             "http://example.com/image.jpg"]]).
Proof. reflexivity. Qed.

(** C5, at cafe_resource.go.  In the scenario of the example configuration
    (the plan of the example as an object of the schema, a stub that assigns
    42 and echoes what is submitted) [Create] of the integer draft stores no
    model: it returns with the "Value Conversion Error" of decoding the
    plan, the state still empty and the stub never called. *)
Theorem Create_int64_scenario (SetDetail : Int64Draft.StateValue -> string)
  (detail : string) :
  Int64Draft.Create SetDetail (Scenario.configuredInt64 Scenario.echoInt64)
    (Scenario.createInt64 detail Scenario.samplePlanObject)
    Scenario.freshInt64 Scenario.start
  = (Done (Int64Draft.mkResponse None [tfsdk.ValueConversionError detail]),
     Scenario.start).
Proof. reflexivity. Qed.

(** ** Read *)

(** What [Read] of the text draft evaluates to, once the state is decoded
    without error. *)
Lemma Read_string_run W Quote (r : StringDraft.cafeResource W) req resp e :
  diag.HasError (StringDraft.Diagnostics resp) = false ->
  diag.HasError (fst (Get (StringDraft.ReadRequest_State req))) = false ->
  let state := snd (Get (StringDraft.ReadRequest_State req)) in
  let seen :=
    diag.Append (StringDraft.Diagnostics resp)
      (fst (Get (StringDraft.ReadRequest_State req))) in
  StringDraft.Read Quote r req resp e =
  match strconv.Atoi Quote (types.ValueString (StringDraft.ID state)) with
  | inr err =>
      (Done (StringDraft.mkResponse (StringDraft.State resp)
               (diag.AddError seen "Error Converting Cafe ID"
                  ("Could not convert cafe ID to integer: " ++ err))),
       e)
  | inl cafeID =>
      match StringDraft.client r with
      | None => (Panic, e)
      | Some c =>
          let (answer, w') := StringDraft.GetCafe c (strconv.Itoa cafeID) (world e) in
          let e' :=
            mkEnv w'
              (calls e ++ [hashicups.CallGetCafe (strconv.Itoa cafeID)])%list in
          match answer with
          | inr err =>
              (Done (StringDraft.mkResponse (StringDraft.State resp)
                       (diag.AddError seen "Unable to Read HashiCups Cafe" err)),
               e')
          | inl [] =>
              (Done (StringDraft.mkResponse (StringDraft.State resp)
                       (diag.AddError seen "Cafe Not Found"
                          "No cafe found with the given ID")),
               e')
          | inl (cafe :: _) =>
              (Done (StringDraft.mkResponse
                       (Some (StringDraft.mkModel
                                (types.StringValue (strconv.Itoa (hashicups.ID cafe)))
                                (types.StringValue (hashicups.Name cafe))
                                (types.StringValue (hashicups.Address cafe))
                                (types.StringValue (hashicups.Description cafe))
                                (types.StringValue (hashicups.Image cafe))))
                       seen),
               e')
          end
      end
  end.
Proof.
  intros Hresp Hstate state seen. subst state seen. run_handler.
  destruct (Get (StringDraft.ReadRequest_State req)) as [diags state].
  cbn [fst snd] in *. cbn [StringDraft.Diagnostics StringDraft.Diagnostics_Append].
  rewrite HasError_Append, Hresp, Hstate. cbn [orb].
  destruct (strconv.Atoi Quote (types.ValueString (StringDraft.ID state)))
    as [cafeID | err]; [| reflexivity].
  destruct (StringDraft.client r) as [c |]; [| reflexivity].
  destruct (StringDraft.GetCafe c (strconv.Itoa cafeID) (world e))
    as [[[| cafe rest] | err] w']; reflexivity.
Qed.

(** X2.  In the text draft an empty answer to the query is reported as "Cafe Not
    Found", a title no remote error is reported under, and the state is
    left as it was. *)
Lemma Read_string_not_found W Quote (c : StringDraft.Client W) r req resp e
  cafeID w' :
  StringDraft.client r = Some c ->
  diag.HasError (StringDraft.Diagnostics resp) = false ->
  diag.HasError (fst (Get (StringDraft.ReadRequest_State req))) = false ->
  strconv.Atoi Quote
    (types.ValueString (StringDraft.ID (snd (Get (StringDraft.ReadRequest_State req)))))
  = inl cafeID ->
  StringDraft.GetCafe c (strconv.Itoa cafeID) (world e) = (inl [], w') ->
  exists resp' e',
    StringDraft.Read Quote r req resp e = (Done resp', e')
    /\ StringDraft.State resp' = StringDraft.State resp
    /\ In (diag.NewErrorDiagnostic "Cafe Not Found"
             "No cafe found with the given ID")
         (StringDraft.Diagnostics resp')
    /\ diag.HasError (StringDraft.Diagnostics resp') = true
    /\ forall err,
         diag.NewErrorDiagnostic "Cafe Not Found" "No cafe found with the given ID"
         <> diag.NewErrorDiagnostic "Unable to Read HashiCups Cafe" err.
Proof.
  intros Hc Hresp Hstate Hid Hget.
  rewrite (Read_string_run W Quote r req resp e Hresp Hstate).
  cbv zeta. rewrite Hid, Hc, Hget.
  do 2 eexists. split; [reflexivity |]. split; [reflexivity |].
  split; [apply In_AddError |]. split; [apply HasError_AddError | discriminate].
Qed.

Lemma Read_string_not_found_witness :
  exists resp' e',
    StringDraft.Read Scenario.quote
      (Scenario.configuredString Scenario.unknownString)
      (Scenario.readString Scenario.sampleStateString)
      Scenario.priorString Scenario.start
    = (Done resp', e')
    /\ StringDraft.State resp' = Some Scenario.sampleStateString
    /\ In (diag.NewErrorDiagnostic "Cafe Not Found"
             "No cafe found with the given ID")
         (StringDraft.Diagnostics resp').
Proof.
  destruct (Read_string_not_found unit Scenario.quote Scenario.unknownString
              (Scenario.configuredString Scenario.unknownString)
              (Scenario.readString Scenario.sampleStateString)
              Scenario.priorString Scenario.start 42 tt
              eq_refl eq_refl eq_refl eq_refl eq_refl)
    as [resp' [e' [Hrun [Hstate [Hin _]]]]].
  exists resp', e'. split; [exact Hrun |]. split; [exact Hstate | exact Hin].
Defined.

(** C3, at cafe_resource.go.  [Read] of the integer draft lists all cafes
    and has no branch for an empty answer.  Against a remote that knows no
    cafe it hands [State.Set] an empty list model, which the schema does
    not admit: the one diagnostic added is that "Value Conversion Error",
    not a not-found error, and the state is as it was, whatever the request
    and the response. *)
Theorem Read_int64_empty_answer (SetDetail : Int64Draft.StateValue -> string)
  (req : Int64Draft.ReadRequest) (resp : Int64Draft.Response) :
  let refused :=
    tfsdk.ValueConversionError
      (SetDetail (Int64Draft.DataSourceState (Int64Draft.mkDataSourceModel []))) in
  Int64Draft.Read SetDetail (Scenario.configuredInt64 Scenario.echoInt64) req
    resp Scenario.start
  = (Done (Int64Draft.mkResponse (Int64Draft.State resp)
             (diag.Append (Int64Draft.Diagnostics resp) [refused])),
     mkEnv tt [hashicups.CallGetCafes])
  /\ refused
     <> diag.NewErrorDiagnostic "Cafe Not Found" "No cafe found with the given ID".
Proof. split; [reflexivity | discriminate]. Qed.

(** C6.  In the text draft, when [strconv.Atoi] rejects the stored
    identifier, [Read] reports one error diagnostic titled "Error Converting
    Cafe ID", which differs from every diagnostic reported for a remote
    error; it sends nothing to the remote system and leaves the state as it
    was.  This holds whether or not a client is configured. *)
Theorem Read_conversion_error W Quote (r : StringDraft.cafeResource W)
  req resp e err :
  diag.HasError (StringDraft.Diagnostics resp) = false ->
  diag.HasError (fst (Get (StringDraft.ReadRequest_State req))) = false ->
  strconv.Atoi Quote
    (types.ValueString (StringDraft.ID (snd (Get (StringDraft.ReadRequest_State req)))))
  = inr err ->
  let conversion :=
    diag.NewErrorDiagnostic "Error Converting Cafe ID"
      ("Could not convert cafe ID to integer: " ++ err) in
  exists resp',
    StringDraft.Read Quote r req resp e = (Done resp', e)
    /\ StringDraft.State resp' = StringDraft.State resp
    /\ StringDraft.Diagnostics resp'
       = diag.Append
           (diag.Append (StringDraft.Diagnostics resp)
              (fst (Get (StringDraft.ReadRequest_State req))))
           [conversion]
    /\ In conversion (StringDraft.Diagnostics resp')
    /\ diag.HasError (StringDraft.Diagnostics resp') = true
    /\ (forall remote,
          conversion <> diag.NewErrorDiagnostic "Unable to Read HashiCups Cafe" remote)
    /\ conversion
       <> diag.NewErrorDiagnostic "Cafe Not Found" "No cafe found with the given ID".
Proof.
  intros Hresp Hstate Hid conversion.
  rewrite (Read_string_run W Quote r req resp e Hresp Hstate).
  cbv zeta. rewrite Hid. eexists. split; [reflexivity |].
  split; [reflexivity |]. split; [reflexivity |].
  split; [apply In_AddError |]. split; [apply HasError_AddError |].
  split; [intros remote |]; discriminate.
Qed.

Lemma Read_conversion_error_witness :
  exists resp',
    StringDraft.Read Scenario.quote
      (Scenario.configuredString Scenario.echoString)
      (Scenario.readString Scenario.corruptStateString)
      Scenario.freshString Scenario.start
    = (Done resp', Scenario.start)
    /\ StringDraft.State resp' = None
    /\ StringDraft.Diagnostics resp'
       = [diag.NewErrorDiagnostic "Error Converting Cafe ID"
            ("Could not convert cafe ID to integer: "
             ++ strconv.NumError_Error Scenario.quote "Atoi" "cafe-42"
                  strconv.ErrSyntax)].
Proof.
  destruct (Read_conversion_error unit Scenario.quote
              (Scenario.configuredString Scenario.echoString)
              (Scenario.readString Scenario.corruptStateString)
              Scenario.freshString Scenario.start _
              eq_refl eq_refl eq_refl)
    as [resp' [Hrun [Hstate [Hdiags _]]]].
  exists resp'. split; [exact Hrun |]. split; [exact Hstate | exact Hdiags].
Defined.

(** In the text draft a non-empty answer replaces all five attributes of
    the state by those of the first cafe: nothing of the prior state is
    kept. *)
Lemma Read_string_refresh W Quote (c : StringDraft.Client W) r req resp e
  cafeID cafe rest w' :
  StringDraft.client r = Some c ->
  diag.HasError (StringDraft.Diagnostics resp) = false ->
  diag.HasError (fst (Get (StringDraft.ReadRequest_State req))) = false ->
  strconv.Atoi Quote
    (types.ValueString (StringDraft.ID (snd (Get (StringDraft.ReadRequest_State req)))))
  = inl cafeID ->
  StringDraft.GetCafe c (strconv.Itoa cafeID) (world e) = (inl (cafe :: rest), w') ->
  StringDraft.Read Quote r req resp e
  = (Done (StringDraft.mkResponse
             (Some (StringDraft.mkModel
                      (types.StringValue (strconv.Itoa (hashicups.ID cafe)))
                      (types.StringValue (hashicups.Name cafe))
                      (types.StringValue (hashicups.Address cafe))
                      (types.StringValue (hashicups.Description cafe))
                      (types.StringValue (hashicups.Image cafe))))
             (diag.Append (StringDraft.Diagnostics resp)
                (fst (Get (StringDraft.ReadRequest_State req))))),
     mkEnv w' (calls e ++ [hashicups.CallGetCafe (strconv.Itoa cafeID)])%list).
Proof.
  intros Hc Hresp Hstate Hid Hget.
  rewrite (Read_string_run W Quote r req resp e Hresp Hstate).
  cbv zeta. rewrite Hid, Hc, Hget. reflexivity.
Qed.

(** X3.  In the text draft a non-empty answer is stored whole: identifier,
    name, address, description and image of the stored model are those of
    the first cafe, so the attributes of the prior state have no part in
    the result, and no error is reported. *)
Lemma Read_string_overwrites W Quote (c : StringDraft.Client W) r req resp e
  cafeID cafe rest w' :
  StringDraft.client r = Some c ->
  diag.HasError (StringDraft.Diagnostics resp) = false ->
  diag.HasError (fst (Get (StringDraft.ReadRequest_State req))) = false ->
  strconv.Atoi Quote
    (types.ValueString (StringDraft.ID (snd (Get (StringDraft.ReadRequest_State req)))))
  = inl cafeID ->
  StringDraft.GetCafe c (strconv.Itoa cafeID) (world e) = (inl (cafe :: rest), w') ->
  exists resp' e',
    StringDraft.Read Quote r req resp e = (Done resp', e')
    /\ StringDraft.State resp'
       = Some (StringDraft.mkModel
                 (types.StringValue (strconv.Itoa (hashicups.ID cafe)))
                 (types.StringValue (hashicups.Name cafe))
                 (types.StringValue (hashicups.Address cafe))
                 (types.StringValue (hashicups.Description cafe))
                 (types.StringValue (hashicups.Image cafe)))
    /\ diag.HasError (StringDraft.Diagnostics resp') = false.
Proof.
  intros Hc Hresp Hstate Hid Hget.
  rewrite (Read_string_refresh W Quote c r req resp e cafeID cafe rest w'
             Hc Hresp Hstate Hid Hget).
  do 2 eexists. split; [reflexivity |]. split; [reflexivity |].
  cbn [StringDraft.Diagnostics]. now rewrite HasError_Append, Hresp, Hstate.
Qed.

Lemma Read_string_overwrites_witness :
  exists resp' e',
    StringDraft.Read Scenario.quote
      (Scenario.configuredString Scenario.partialString)
      (Scenario.readString Scenario.sampleStateString)
      Scenario.priorString Scenario.start
    = (Done resp', e')
    /\ StringDraft.State resp' = Some Scenario.renamedPlanString
    /\ diag.HasError (StringDraft.Diagnostics resp') = false.
Proof.
  exact (Read_string_overwrites unit Scenario.quote Scenario.partialString
           (Scenario.configuredString Scenario.partialString)
           (Scenario.readString Scenario.sampleStateString)
           Scenario.priorString Scenario.start 42 Scenario.renamedCafe [] tt
           eq_refl eq_refl eq_refl eq_refl eq_refl).
Defined.

(** C7, at cafe_resource.go.  [Read] of the integer draft refreshes no
    attribute of the resource it is called for.  Whatever the request and
    the response, against a remote that lists two cafes it hands
    [State.Set] a list model of both, which the schema does not admit: a
    "Value Conversion Error" is reported and the state is as it was. *)
Theorem Read_int64_refreshes_nothing
  (SetDetail : Int64Draft.StateValue -> string)
  (req : Int64Draft.ReadRequest) (resp : Int64Draft.Response) :
  Int64Draft.Read SetDetail (Scenario.configuredInt64 Scenario.twoCafesInt64) req
    resp Scenario.start
  = (Done (Int64Draft.mkResponse (Int64Draft.State resp)
             (diag.Append (Int64Draft.Diagnostics resp)
                [tfsdk.ValueConversionError
                   (SetDetail
                      (Int64Draft.DataSourceState
                         (Int64Draft.mkDataSourceModel
                            [Int64Draft.cafeState Scenario.sampleCafe;
                             Int64Draft.cafeState Scenario.otherCafe])))])),
     mkEnv tt [hashicups.CallGetCafes]).
Proof. reflexivity. Qed.

(** C10.  In the text draft, when the query answers with two or more cafes,
    [Read] stores the model of the first one, whatever the others are, and
    adds no diagnostic to those of the response and of the decoding. *)
Theorem Read_takes_first W Quote (c : StringDraft.Client W) r req resp e
  cafeID first second rest w' :
  StringDraft.client r = Some c ->
  diag.HasError (StringDraft.Diagnostics resp) = false ->
  diag.HasError (fst (Get (StringDraft.ReadRequest_State req))) = false ->
  strconv.Atoi Quote
    (types.ValueString (StringDraft.ID (snd (Get (StringDraft.ReadRequest_State req)))))
  = inl cafeID ->
  StringDraft.GetCafe c (strconv.Itoa cafeID) (world e)
  = (inl (first :: second :: rest), w') ->
  exists resp' e',
    StringDraft.Read Quote r req resp e = (Done resp', e')
    /\ StringDraft.State resp'
       = Some (StringDraft.mkModel
                 (types.StringValue (strconv.Itoa (hashicups.ID first)))
                 (types.StringValue (hashicups.Name first))
                 (types.StringValue (hashicups.Address first))
                 (types.StringValue (hashicups.Description first))
                 (types.StringValue (hashicups.Image first)))
    /\ StringDraft.Diagnostics resp'
       = diag.Append (StringDraft.Diagnostics resp)
           (fst (Get (StringDraft.ReadRequest_State req)))
    /\ diag.HasError (StringDraft.Diagnostics resp') = false.
Proof.
  intros Hc Hresp Hstate Hid Hget.
  rewrite (Read_string_refresh W Quote c r req resp e cafeID first
             (second :: rest) w' Hc Hresp Hstate Hid Hget).
  do 2 eexists. split; [reflexivity |]. split; [reflexivity |].
  split; [reflexivity |].
  cbn [StringDraft.Diagnostics]. now rewrite HasError_Append, Hresp, Hstate.
Qed.

Lemma Read_takes_first_witness :
  exists resp' e',
    StringDraft.Read Scenario.quote
      (Scenario.configuredString Scenario.twoCafesString)
      (Scenario.readString Scenario.sampleStateString)
      Scenario.freshString Scenario.start
    = (Done resp', e')
    /\ StringDraft.State resp' = Some Scenario.sampleStateString
    /\ StringDraft.Diagnostics resp' = []
    /\ diag.HasError (StringDraft.Diagnostics resp') = false.
Proof.
  exact (Read_takes_first unit Scenario.quote Scenario.twoCafesString
           (Scenario.configuredString Scenario.twoCafesString)
           (Scenario.readString Scenario.sampleStateString)
           Scenario.freshString Scenario.start 42
           Scenario.sampleCafe Scenario.otherCafe [] tt
           eq_refl eq_refl eq_refl eq_refl eq_refl).
Defined.

(** The loop of [Read] in the integer draft appends one model per cafe. *)
Lemma Read_int64_loop cafes : forall acc,
  fold_left
    (fun state cafe =>
       Int64Draft.mkDataSourceModel
         (Int64Draft.Cafe state ++ [Int64Draft.cafeState cafe])%list)
    cafes (Int64Draft.mkDataSourceModel acc)
  = Int64Draft.mkDataSourceModel (acc ++ map Int64Draft.cafeState cafes)%list.
Proof.
  induction cafes as [| cafe cafes IH]; intros acc; cbn [fold_left map].
  - now rewrite app_nil_r.
  - cbn [Int64Draft.Cafe]. rewrite IH, <- app_assoc. reflexivity.
Qed.

(** What [Read] of the integer draft evaluates to; the request is not
    looked at. *)
Lemma Read_int64_run W SetDetail (c : Int64Draft.Client W) d req resp e :
  Int64Draft.client d = Some c ->
  Int64Draft.Read SetDetail d req resp e =
  let (answer, w') := Int64Draft.GetCafes c (world e) in
  let e' := mkEnv w' (calls e ++ [hashicups.CallGetCafes])%list in
  match answer with
  | inr err =>
      (Done (Int64Draft.mkResponse (Int64Draft.State resp)
               (diag.AddError (Int64Draft.Diagnostics resp)
                  "Unable to Read HashiCups Cafes" err)),
       e')
  | inl cafes =>
      (Done (Int64Draft.mkResponse (Int64Draft.State resp)
               (diag.Append (Int64Draft.Diagnostics resp)
                  [tfsdk.ValueConversionError
                     (SetDetail
                        (Int64Draft.DataSourceState
                           (Int64Draft.mkDataSourceModel
                              (map Int64Draft.cafeState cafes))))])),
       e')
  end.
Proof.
  intros Hc. run_handler. rewrite Hc. cbv beta zeta.
  destruct (Int64Draft.GetCafes c (world e)) as [[cafes | err] w'];
    [| reflexivity].
  rewrite Read_int64_loop. cbn [app]. unfold Int64Draft.State_Set.
  rewrite Int64Draft_Set_refused. reflexivity.
Qed.

(** C9.  In the text draft two [Read]s in a row, the second one on the
    state the first one stored and answered by the remote system as the
    first one was, store the same state.  The first query is for the decimal
    text of the stored identifier and the second one for that of the first
    cafe's identifier (a Go [int]). *)
Theorem Read_idempotent (W : Type) :
  forall Quote (c : StringDraft.Client W) r req resp e cafeID cafe rest w1 w2,
    StringDraft.client r = Some c ->
    diag.HasError (StringDraft.Diagnostics resp) = false ->
    diag.HasError (fst (Get (StringDraft.ReadRequest_State req))) = false ->
    strconv.Atoi Quote
      (types.ValueString
         (StringDraft.ID (snd (Get (StringDraft.ReadRequest_State req)))))
    = inl cafeID ->
    StringDraft.GetCafe c (strconv.Itoa cafeID) (world e)
    = (inl (cafe :: rest), w1) ->
    strconv.is_int (hashicups.ID cafe) ->
    StringDraft.GetCafe c (strconv.Itoa (hashicups.ID cafe)) w1
    = (inl (cafe :: rest), w2) ->
    exists resp1 e1 refreshed resp2 e2,
      StringDraft.Read Quote r req resp e = (Done resp1, e1)
      /\ StringDraft.State resp1 = Some refreshed
      /\ StringDraft.Read Quote r
           (StringDraft.mkReadRequest (mkSource ([], refreshed))) resp1 e1
         = (Done resp2, e2)
      /\ StringDraft.State resp2 = Some refreshed
      /\ StringDraft.Diagnostics resp2 = StringDraft.Diagnostics resp1.
Proof.
  intros Quote c r req resp e cafeID cafe rest w1 w2
    Hc Hresp Hstate Hid Hget1 Hint Hget2.
  rewrite (Read_string_refresh W Quote c r req resp e cafeID cafe rest w1
             Hc Hresp Hstate Hid Hget1).
  do 3 eexists.
  assert (Hseen : diag.HasError
                    (diag.Append (StringDraft.Diagnostics resp)
                       (fst (Get (StringDraft.ReadRequest_State req))))
                  = false)
    by now rewrite HasError_Append, Hresp, Hstate.
  erewrite (Read_string_refresh W Quote c r _ _ _ (hashicups.ID cafe) cafe
              rest w2 Hc).
  - do 2 eexists. split; [reflexivity |]. split; [reflexivity |].
    split; [reflexivity |]. split; reflexivity.
  - exact Hseen.
  - reflexivity.
  - cbn. now apply Atoi_Itoa.
  - exact Hget2.
Qed.

Lemma Read_idempotent_witness :
  exists resp1 e1 refreshed resp2 e2,
    StringDraft.Read Scenario.quote
      (Scenario.configuredString Scenario.echoString)
      (Scenario.readString
         (StringDraft.set_ID (types.StringValue "+0042") Scenario.renamedPlanString))
      Scenario.freshString Scenario.start
    = (Done resp1, e1)
    /\ StringDraft.State resp1 = Some refreshed
    /\ StringDraft.Read Scenario.quote
         (Scenario.configuredString Scenario.echoString)
         (StringDraft.mkReadRequest (mkSource ([], refreshed))) resp1 e1
       = (Done resp2, e2)
    /\ StringDraft.State resp2 = Some refreshed
    /\ StringDraft.Diagnostics resp2 = StringDraft.Diagnostics resp1.
Proof.
  refine (Read_idempotent unit Scenario.quote Scenario.echoString
            (Scenario.configuredString Scenario.echoString)
            (Scenario.readString
               (StringDraft.set_ID (types.StringValue "+0042")
                  Scenario.renamedPlanString))
            Scenario.freshString Scenario.start 42 Scenario.sampleCafe [] tt tt
            eq_refl eq_refl eq_refl eq_refl eq_refl _ eq_refl).
  unfold strconv.is_int, strconv.maxInt64. simpl. lia.
Defined.

(** ** Update *)

(** C4, at part_000.  [Update] of the text draft sends the update and
    nothing else: against a remote that answers the update with the
    identifier only, it stores the four empty attributes of that answer and
    never queries the cafe, which the remote would return in full. *)
Theorem Update_string_trusts_answer :
  StringDraft.Update Scenario.quote
    (Scenario.configuredString Scenario.partialString)
    (Scenario.updateString Scenario.renamedPlanString)
    Scenario.priorString Scenario.start
  = (Done (StringDraft.mkResponse
             (Some (StringDraft.mkModel
                      (types.StringValue "42")
                      (types.StringValue EmptyString)
                      (types.StringValue EmptyString)
                      (types.StringValue EmptyString)
                      (types.StringValue EmptyString)))
             []),
     mkEnv tt
       [hashicups.CallUpdateCafe "42"
          [hashicups.mkCafe 42 "Renamed Cafe" "123 Coffee St" "A cozy place"
             "http://example.com/image.jpg"]]).
Proof. reflexivity. Qed.

(** ** Configure *)

(** C8.  In both drafts: with nil provider data [Configure] changes neither
    the resource nor the response; with provider data of another dynamic
    type it keeps the client handle and appends the error diagnostic
    "Unexpected Data Source Configure Type", whose detail names
    [*hashicups.Client] and the dynamic type found, so that a response with
    no diagnostic ends with exactly that one; with provider data of type
    [*hashicups.Client] it stores that handle and reports nothing; and the
    handle changes in no other case. *)
Theorem Configure_contract (W : Type) :
  (forall (r : StringDraft.cafeResource W) req resp,
     (ProviderData req = None -> StringDraft.Configure r req resp = (r, resp))
     /\ (forall dynType,
           ProviderData req = Some (AnyOther dynType) ->
           let unexpected :=
             diag.NewErrorDiagnostic "Unexpected Data Source Configure Type"
               ("Expected *hashicups.Client, got: " ++ dynType
                ++ ". Please report this issue to the provider developers.") in
           StringDraft.Configure r req resp
           = (r,
              mkConfigureResponse
                (diag.Append (ConfigureResponse_Diagnostics resp) [unexpected]))
           /\ (ConfigureResponse_Diagnostics resp = [] ->
               StringDraft.Configure r req resp
               = (r, mkConfigureResponse [unexpected])))
     /\ (forall handle,
           ProviderData req = Some (AnyClient handle) ->
           StringDraft.Configure r req resp = (StringDraft.mkResource handle, resp))
     /\ (StringDraft.client (fst (StringDraft.Configure r req resp))
         <> StringDraft.client r ->
         exists handle, ProviderData req = Some (AnyClient handle)))
  /\
  (forall (r : Int64Draft.cafeResource W) req resp,
     (ProviderData req = None -> Int64Draft.Configure r req resp = (r, resp))
     /\ (forall dynType,
           ProviderData req = Some (AnyOther dynType) ->
           let unexpected :=
             diag.NewErrorDiagnostic "Unexpected Data Source Configure Type"
               ("Expected *hashicups.Client, got: " ++ dynType
                ++ ". Please report this issue to the provider developers.") in
           Int64Draft.Configure r req resp
           = (r,
              mkConfigureResponse
                (diag.Append (ConfigureResponse_Diagnostics resp) [unexpected]))
           /\ (ConfigureResponse_Diagnostics resp = [] ->
               Int64Draft.Configure r req resp
               = (r, mkConfigureResponse [unexpected])))
     /\ (forall handle,
           ProviderData req = Some (AnyClient handle) ->
           Int64Draft.Configure r req resp = (Int64Draft.mkResource handle, resp))
     /\ (Int64Draft.client (fst (Int64Draft.Configure r req resp))
         <> Int64Draft.client r ->
         exists handle, ProviderData req = Some (AnyClient handle))).
Proof.
  split; intros r req resp.
  - unfold StringDraft.Configure. split; [| split; [| split]].
    + intros ->. reflexivity.
    + intros dynType Hdyn. rewrite Hdyn.
      split; [reflexivity | intros ->; reflexivity].
    + intros handle ->. reflexivity.
    + destruct (ProviderData req) as [[handle | dynType] |]; cbn [fst];
        intros Hneq; [now exists handle | now contradiction Hneq ..].
  - unfold Int64Draft.Configure. split; [| split; [| split]].
    + intros ->. reflexivity.
    + intros dynType Hdyn. rewrite Hdyn.
      split; [reflexivity | intros ->; reflexivity].
    + intros handle ->. reflexivity.
    + destruct (ProviderData req) as [[handle | dynType] |]; cbn [fst];
        intros Hneq; [now exists handle | now contradiction Hneq ..].
Qed.

Lemma Configure_contract_witness :
  StringDraft.Configure (@StringDraft.NewCafeResource unit)
    (mkConfigureRequest (Some (AnyOther "string")))
    (mkConfigureResponse [])
  = (StringDraft.NewCafeResource,
     mkConfigureResponse
       [diag.NewErrorDiagnostic "Unexpected Data Source Configure Type"
          "Expected *hashicups.Client, got: string. Please report this issue to the provider developers."])
  /\
  StringDraft.Configure (@StringDraft.NewCafeResource unit)
    (mkConfigureRequest (Some (AnyClient (Some Scenario.echoString))))
    (mkConfigureResponse [])
  = (Scenario.configuredString Scenario.echoString, mkConfigureResponse []).
Proof.
  split.
  - exact (proj2
             (proj1 (proj2 (proj1 (Configure_contract unit)
                                StringDraft.NewCafeResource
                                (mkConfigureRequest (Some (AnyOther "string")))
                                (mkConfigureResponse [])))
                "string" eq_refl)
             eq_refl).
  - exact (proj1 (proj2 (proj2 (proj1 (Configure_contract unit)
                                  StringDraft.NewCafeResource
                                  (mkConfigureRequest
                                     (Some (AnyClient (Some Scenario.echoString))))
                                  (mkConfigureResponse []))))
             (Some Scenario.echoString) eq_refl).
Defined.

(** ** Delete *)

(** What [Delete] of the text draft evaluates to, once the state is decoded
    without error. *)
Lemma Delete_string_run W Quote (r : StringDraft.cafeResource W) req resp e :
  diag.HasError (StringDraft.Diagnostics resp) = false ->
  diag.HasError (fst (Get (StringDraft.DeleteRequest_State req))) = false ->
  let state := snd (Get (StringDraft.DeleteRequest_State req)) in
  let seen :=
    diag.Append (StringDraft.Diagnostics resp)
      (fst (Get (StringDraft.DeleteRequest_State req))) in
  StringDraft.Delete Quote r req resp e =
  match strconv.Atoi Quote (types.ValueString (StringDraft.ID state)) with
  | inr err =>
      (Done (StringDraft.mkResponse (StringDraft.State resp)
               (diag.AddError seen "Error Deleting HashiCups Cafe"
                  ("Could not convert cafe ID to integer: " ++ err))),
       e)
  | inl cafeID =>
      match StringDraft.client r with
      | None => (Panic, e)
      | Some c =>
          let (answer, w') :=
            StringDraft.DeleteCafe c (strconv.Itoa cafeID) (world e) in
          let e' :=
            mkEnv w'
              (calls e ++ [hashicups.CallDeleteCafe (strconv.Itoa cafeID)])%list in
          match answer with
          | Some err =>
              (Done (StringDraft.mkResponse (StringDraft.State resp)
                       (diag.AddError seen "Error Deleting HashiCups Cafe"
                          ("Could not delete cafe, unexpected error: " ++ err))),
               e')
          | None => (Done (StringDraft.mkResponse (StringDraft.State resp) seen), e')
          end
      end
  end.
Proof.
  intros Hresp Hstate state seen. subst state seen. run_handler.
  destruct (Get (StringDraft.DeleteRequest_State req)) as [diags state].
  cbn [fst snd] in *. cbn [StringDraft.Diagnostics StringDraft.Diagnostics_Append].
  rewrite HasError_Append, Hresp, Hstate. cbn [orb].
  destruct (strconv.Atoi Quote (types.ValueString (StringDraft.ID state)))
    as [cafeID | err]; [| reflexivity].
  destruct (StringDraft.client r) as [c |]; [| reflexivity].
  destruct (StringDraft.DeleteCafe c (strconv.Itoa cafeID) (world e))
    as [[err |] w']; reflexivity.
Qed.

(** X6.  [Delete] of the text draft, for a state decoded without error and
    a configured client.  If [strconv.Atoi] rejects the stored identifier,
    nothing is sent and an error titled "Error Deleting HashiCups Cafe" is
    reported.  Otherwise exactly one request is sent, for the decimal text
    of the parsed identifier (not for the stored text); an error of the
    client is reported under the same title with the client's text, and on
    success nothing is reported.  The state of the response is never
    changed. *)
Theorem Delete_string_contract W Quote (c : StringDraft.Client W) r req resp e :
  StringDraft.client r = Some c ->
  diag.HasError (StringDraft.Diagnostics resp) = false ->
  diag.HasError (fst (Get (StringDraft.DeleteRequest_State req))) = false ->
  let stored :=
    types.ValueString
      (StringDraft.ID (snd (Get (StringDraft.DeleteRequest_State req)))) in
  let seen :=
    diag.Append (StringDraft.Diagnostics resp)
      (fst (Get (StringDraft.DeleteRequest_State req))) in
  (forall err,
     strconv.Atoi Quote stored = inr err ->
     exists resp',
       StringDraft.Delete Quote r req resp e = (Done resp', e)
       /\ StringDraft.State resp' = StringDraft.State resp
       /\ diag.HasError (StringDraft.Diagnostics resp') = true
       /\ In (diag.NewErrorDiagnostic "Error Deleting HashiCups Cafe"
                ("Could not convert cafe ID to integer: " ++ err))
            (StringDraft.Diagnostics resp'))
  /\
  (forall cafeID answer w',
     strconv.Atoi Quote stored = inl cafeID ->
     StringDraft.DeleteCafe c (strconv.Itoa cafeID) (world e) = (answer, w') ->
     exists resp',
       StringDraft.Delete Quote r req resp e
       = (Done resp',
          mkEnv w'
            (calls e ++ [hashicups.CallDeleteCafe (strconv.Itoa cafeID)])%list)
       /\ StringDraft.State resp' = StringDraft.State resp
       /\ match answer with
          | None => StringDraft.Diagnostics resp' = seen
          | Some err =>
              diag.HasError (StringDraft.Diagnostics resp') = true
              /\ In (diag.NewErrorDiagnostic "Error Deleting HashiCups Cafe"
                       ("Could not delete cafe, unexpected error: " ++ err))
                   (StringDraft.Diagnostics resp')
          end).
Proof.
  intros Hc Hresp Hstate stored seen. subst stored seen.
  rewrite (Delete_string_run W Quote r req resp e Hresp Hstate). cbv zeta.
  split.
  - intros err ->. eexists. split; [reflexivity |]. split; [reflexivity |].
    split; [apply HasError_AddError | apply In_AddError].
  - intros cafeID answer w' -> Hanswer. rewrite Hc, Hanswer.
    destruct answer as [err |]; eexists; (split; [reflexivity |]);
      (split; [reflexivity |]).
    + split; [apply HasError_AddError | apply In_AddError].
    + reflexivity.
Qed.

Lemma Delete_string_contract_witness :
  exists resp',
    StringDraft.Delete Scenario.quote
      (Scenario.configuredString Scenario.echoString)
      (Scenario.deleteString Scenario.signedStateString)
      Scenario.priorString Scenario.start
    = (Done resp', mkEnv tt [hashicups.CallDeleteCafe "42"])
    /\ StringDraft.State resp' = Some Scenario.sampleStateString
    /\ StringDraft.Diagnostics resp' = [].
Proof.
  exact (proj2 (Delete_string_contract unit Scenario.quote Scenario.echoString
                  (Scenario.configuredString Scenario.echoString)
                  (Scenario.deleteString Scenario.signedStateString)
                  Scenario.priorString Scenario.start
                  eq_refl eq_refl eq_refl)
           42 None tt eq_refl eq_refl).
Defined.

(** X7.  [Delete] of the integer draft sends no request, for any state of
    the resource: a state is an object of the schema, whose [id] is a text,
    so decoding it into the model, whose [ID] is an integer, fails, and
    [Delete] returns with that "Value Conversion Error", the response's
    state as it was, whatever the resource and the response. *)
Theorem Delete_int64_stops_at_decode W detail (r : Int64Draft.cafeResource W)
  resp e state :
  tfsdk.conforms Int64Draft.resource_schema state = true ->
  Int64Draft.Delete r
    (Int64Draft.mkDeleteRequest (mkSource (Int64Draft.Get_into detail state)))
    resp e
  = (Done (Int64Draft.mkResponse (Int64Draft.State resp)
             (diag.Append (Int64Draft.Diagnostics resp)
                [tfsdk.ValueConversionError detail])),
     e).
Proof.
  intros Hfits. run_handler.
  cbn [Get Int64Draft.DeleteRequest_State].
  rewrite (Int64Draft_Get_refused detail state Hfits).
  cbn [Int64Draft.Diagnostics Int64Draft.Diagnostics_Append].
  rewrite HasError_Append. cbn [diag.HasError existsb].
  rewrite orb_true_r. reflexivity.
Qed.

Lemma Delete_int64_stops_at_decode_witness :
  Int64Draft.Delete (Scenario.configuredInt64 Scenario.echoInt64)
    (Scenario.deleteInt64 Scenario.getDetail Scenario.sampleStateObject)
    Scenario.priorInt64 Scenario.start
  = (Done (Int64Draft.mkResponse (Some Scenario.sampleStateObject)
             [tfsdk.ValueConversionError Scenario.getDetail]),
     Scenario.start).
Proof.
  exact (Delete_int64_stops_at_decode unit Scenario.getDetail
           (Scenario.configuredInt64 Scenario.echoInt64)
           Scenario.priorInt64 Scenario.start Scenario.sampleStateObject
           eq_refl).
Defined.

(** X4.  [Update] of the integer draft sends neither the update nor the
    query that follows it in the source, for any plan of the resource:
    decoding the plan, an object of the schema, into the model fails on the
    field [ID], and [Update] returns with that "Value Conversion Error",
    the state as it was, whatever the resource and the response. *)
Theorem Update_int64_stops_at_decode W SetDetail detail
  (r : Int64Draft.cafeResource W) resp e plan :
  tfsdk.conforms Int64Draft.resource_schema plan = true ->
  Int64Draft.Update SetDetail r
    (Int64Draft.mkUpdateRequest (mkSource (Int64Draft.Get_into detail plan)))
    resp e
  = (Done (Int64Draft.mkResponse (Int64Draft.State resp)
             (diag.Append (Int64Draft.Diagnostics resp)
                [tfsdk.ValueConversionError detail])),
     e).
Proof.
  intros Hfits. run_handler.
  cbn [Get Int64Draft.UpdateRequest_Plan].
  rewrite (Int64Draft_Get_refused detail plan Hfits).
  cbn [Int64Draft.Diagnostics Int64Draft.Diagnostics_Append].
  rewrite HasError_Append. cbn [diag.HasError existsb].
  rewrite orb_true_r. reflexivity.
Qed.

Lemma Update_int64_stops_at_decode_witness :
  Int64Draft.Update Scenario.setDetail
    (Scenario.configuredInt64 Scenario.partialInt64)
    (Scenario.updateInt64 Scenario.getDetail Scenario.renamedPlanObject)
    Scenario.priorInt64 Scenario.start
  = (Done (Int64Draft.mkResponse (Some Scenario.sampleStateObject)
             [tfsdk.ValueConversionError Scenario.getDetail]),
     Scenario.start).
Proof.
  exact (Update_int64_stops_at_decode unit Scenario.setDetail Scenario.getDetail
           (Scenario.configuredInt64 Scenario.partialInt64)
           Scenario.priorInt64 Scenario.start Scenario.renamedPlanObject
           eq_refl).
Defined.

(** ** More on Update and Read *)

(** What [Update] of the text draft evaluates to, once the plan is decoded
    without error. *)
Lemma Update_string_run W Quote (r : StringDraft.cafeResource W) req resp e :
  diag.HasError (StringDraft.Diagnostics resp) = false ->
  diag.HasError (fst (Get (StringDraft.UpdateRequest_Plan req))) = false ->
  let plan := snd (Get (StringDraft.UpdateRequest_Plan req)) in
  let seen :=
    diag.Append (StringDraft.Diagnostics resp)
      (fst (Get (StringDraft.UpdateRequest_Plan req))) in
  StringDraft.Update Quote r req resp e =
  match strconv.Atoi Quote (types.ValueString (StringDraft.ID plan)) with
  | inr err =>
      (Done (StringDraft.mkResponse (StringDraft.State resp)
               (diag.AddError seen "Error Converting Cafe ID"
                  ("Could not convert cafe ID to integer: " ++ err))),
       e)
  | inl cafeID =>
      let cafe :=
        hashicups.mkCafe cafeID
          (types.ValueString (StringDraft.Name plan))
          (types.ValueString (StringDraft.Address plan))
          (types.ValueString (StringDraft.Description plan))
          (types.ValueString (StringDraft.Image plan)) in
      let sent := types.ValueString (StringDraft.ID plan) in
      match StringDraft.client r with
      | None => (Panic, e)
      | Some c =>
          let (answer, w') := StringDraft.UpdateCafe c sent [cafe] (world e) in
          let e' :=
            mkEnv w' (calls e ++ [hashicups.CallUpdateCafe sent [cafe]])%list in
          match answer with
          | inr err =>
              (Done (StringDraft.mkResponse (StringDraft.State resp)
                       (diag.AddError seen "Error Updating HashiCups Cafe"
                          ("Could not update cafe, unexpected error: " ++ err))),
               e')
          | inl updated =>
              (Done (StringDraft.mkResponse
                       (Some (StringDraft.mkModel
                                (types.StringValue (strconv.Itoa (hashicups.ID updated)))
                                (types.StringValue (hashicups.Name updated))
                                (types.StringValue (hashicups.Address updated))
                                (types.StringValue (hashicups.Description updated))
                                (types.StringValue (hashicups.Image updated))))
                       seen),
               e')
          end
      end
  end.
Proof.
  intros Hresp Hplan plan seen. subst plan seen. run_handler.
  destruct (Get (StringDraft.UpdateRequest_Plan req)) as [diags plan].
  cbn [fst snd] in *. cbn [StringDraft.Diagnostics StringDraft.Diagnostics_Append].
  rewrite HasError_Append, Hresp, Hplan. cbn [orb].
  destruct (strconv.Atoi Quote (types.ValueString (StringDraft.ID plan)))
    as [cafeID | err]; [| reflexivity].
  cbv zeta. destruct (StringDraft.client r) as [c |]; [| reflexivity].
  match goal with
  | |- context [StringDraft.UpdateCafe c ?i ?q (world e)] =>
      destruct (StringDraft.UpdateCafe c i q (world e)) as [[updated | err] w']
  end; reflexivity.
Qed.

(** X8.  [Update] of the text draft, for a plan decoded without error and a
    configured client.  If [strconv.Atoi] rejects the planned identifier,
    nothing is sent and "Error Converting Cafe ID" is reported.  Otherwise
    one update is sent: addressed by the planned identifier text as it
    stands, and carrying one cafe with the parsed identifier and the four
    planned attributes.  A cafe in answer replaces all five attributes of
    the state; an error in answer is reported as "Error Updating HashiCups
    Cafe" with the client's text and leaves the state as it was. *)
Theorem Update_string_contract W Quote (c : StringDraft.Client W) r req resp e :
  StringDraft.client r = Some c ->
  diag.HasError (StringDraft.Diagnostics resp) = false ->
  diag.HasError (fst (Get (StringDraft.UpdateRequest_Plan req))) = false ->
  let plan := snd (Get (StringDraft.UpdateRequest_Plan req)) in
  let sent := types.ValueString (StringDraft.ID plan) in
  (forall err,
     strconv.Atoi Quote sent = inr err ->
     exists resp',
       StringDraft.Update Quote r req resp e = (Done resp', e)
       /\ StringDraft.State resp' = StringDraft.State resp
       /\ diag.HasError (StringDraft.Diagnostics resp') = true
       /\ In (diag.NewErrorDiagnostic "Error Converting Cafe ID"
                ("Could not convert cafe ID to integer: " ++ err))
            (StringDraft.Diagnostics resp'))
  /\
  (forall cafeID answer w',
     strconv.Atoi Quote sent = inl cafeID ->
     let cafe :=
       hashicups.mkCafe cafeID
         (types.ValueString (StringDraft.Name plan))
         (types.ValueString (StringDraft.Address plan))
         (types.ValueString (StringDraft.Description plan))
         (types.ValueString (StringDraft.Image plan)) in
     StringDraft.UpdateCafe c sent [cafe] (world e) = (answer, w') ->
     exists resp',
       StringDraft.Update Quote r req resp e
       = (Done resp',
          mkEnv w' (calls e ++ [hashicups.CallUpdateCafe sent [cafe]])%list)
       /\ match answer with
          | inl updated =>
              StringDraft.State resp'
              = Some (StringDraft.mkModel
                        (types.StringValue (strconv.Itoa (hashicups.ID updated)))
                        (types.StringValue (hashicups.Name updated))
                        (types.StringValue (hashicups.Address updated))
                        (types.StringValue (hashicups.Description updated))
                        (types.StringValue (hashicups.Image updated)))
              /\ diag.HasError (StringDraft.Diagnostics resp') = false
          | inr err =>
              StringDraft.State resp' = StringDraft.State resp
              /\ diag.HasError (StringDraft.Diagnostics resp') = true
              /\ In (diag.NewErrorDiagnostic "Error Updating HashiCups Cafe"
                       ("Could not update cafe, unexpected error: " ++ err))
                   (StringDraft.Diagnostics resp')
          end).
Proof.
  intros Hc Hresp Hplan plan sent. subst plan sent.
  rewrite (Update_string_run W Quote r req resp e Hresp Hplan). cbv zeta.
  split.
  - intros err ->. eexists. split; [reflexivity |]. split; [reflexivity |].
    split; [apply HasError_AddError | apply In_AddError].
  - intros cafeID answer w' -> Hanswer. rewrite Hc, Hanswer.
    destruct answer as [updated | err]; eexists; (split; [reflexivity |]);
      (split; [reflexivity |]).
    + cbn [StringDraft.Diagnostics]. now rewrite HasError_Append, Hresp, Hplan.
    + split; [apply HasError_AddError | apply In_AddError].
Qed.

Lemma Update_string_contract_witness :
  exists resp',
    StringDraft.Update Scenario.quote
      (Scenario.configuredString Scenario.failingString)
      (Scenario.updateString Scenario.signedStateString)
      Scenario.priorString Scenario.start
    = (Done resp',
       mkEnv tt [hashicups.CallUpdateCafe "+0042" [Scenario.sampleCafe]])
    /\ StringDraft.State resp' = Some Scenario.sampleStateString
    /\ diag.HasError (StringDraft.Diagnostics resp') = true
    /\ In (diag.NewErrorDiagnostic "Error Updating HashiCups Cafe"
             "Could not update cafe, unexpected error: connection refused")
         (StringDraft.Diagnostics resp').
Proof.
  exact (proj2 (Update_string_contract unit Scenario.quote Scenario.failingString
                  (Scenario.configuredString Scenario.failingString)
                  (Scenario.updateString Scenario.signedStateString)
                  Scenario.priorString Scenario.start
                  eq_refl eq_refl eq_refl)
           42 (inr Scenario.down) tt eq_refl eq_refl).
Defined.

(** X9.  In the text draft an error of the query is reported by [Read] as
    "Unable to Read HashiCups Cafe" with the client's text alone as detail;
    the state is left as it was, and the one request sent is for the
    decimal text of the parsed identifier. *)
Theorem Read_string_remote_error W Quote (c : StringDraft.Client W) r req resp e
  cafeID err w' :
  StringDraft.client r = Some c ->
  diag.HasError (StringDraft.Diagnostics resp) = false ->
  diag.HasError (fst (Get (StringDraft.ReadRequest_State req))) = false ->
  strconv.Atoi Quote
    (types.ValueString (StringDraft.ID (snd (Get (StringDraft.ReadRequest_State req)))))
  = inl cafeID ->
  StringDraft.GetCafe c (strconv.Itoa cafeID) (world e) = (inr err, w') ->
  exists resp',
    StringDraft.Read Quote r req resp e
    = (Done resp',
       mkEnv w' (calls e ++ [hashicups.CallGetCafe (strconv.Itoa cafeID)])%list)
    /\ StringDraft.State resp' = StringDraft.State resp
    /\ diag.HasError (StringDraft.Diagnostics resp') = true
    /\ In (diag.NewErrorDiagnostic "Unable to Read HashiCups Cafe" err)
         (StringDraft.Diagnostics resp').
Proof.
  intros Hc Hresp Hstate Hid Hget.
  rewrite (Read_string_run W Quote r req resp e Hresp Hstate).
  cbv zeta. rewrite Hid, Hc, Hget.
  eexists. split; [reflexivity |]. split; [reflexivity |].
  split; [apply HasError_AddError | apply In_AddError].
Qed.

Lemma Read_string_remote_error_witness :
  exists resp',
    StringDraft.Read Scenario.quote
      (Scenario.configuredString Scenario.failingString)
      (Scenario.readString Scenario.signedStateString)
      Scenario.priorString Scenario.start
    = (Done resp', mkEnv tt [hashicups.CallGetCafe "42"])
    /\ StringDraft.State resp' = Some Scenario.sampleStateString
    /\ diag.HasError (StringDraft.Diagnostics resp') = true
    /\ In (diag.NewErrorDiagnostic "Unable to Read HashiCups Cafe"
             "connection refused")
         (StringDraft.Diagnostics resp').
Proof.
  exact (Read_string_remote_error unit Scenario.quote Scenario.failingString
           (Scenario.configuredString Scenario.failingString)
           (Scenario.readString Scenario.signedStateString)
           Scenario.priorString Scenario.start 42 Scenario.down tt
           eq_refl eq_refl eq_refl eq_refl eq_refl).
Defined.

(** X10.  [Read] of the integer draft with a configured client sends one
    list-all request, whatever the request and the response hold, and never
    changes the state.  A list in answer is turned into a list model with
    one entry per cafe, in the order of the answer, which [State.Set]
    refuses under the resource's schema: a "Value Conversion Error" is
    reported.  An error in answer is reported as "Unable to Read HashiCups
    Cafes" with the client's text alone.  Either way the response ends with
    an error. *)
Theorem Read_int64_contract W SetDetail (c : Int64Draft.Client W) d req resp e
  answer w' :
  Int64Draft.client d = Some c ->
  Int64Draft.GetCafes c (world e) = (answer, w') ->
  exists resp',
    Int64Draft.Read SetDetail d req resp e
    = (Done resp', mkEnv w' (calls e ++ [hashicups.CallGetCafes])%list)
    /\ Int64Draft.State resp' = Int64Draft.State resp
    /\ diag.HasError (Int64Draft.Diagnostics resp') = true
    /\ Int64Draft.Diagnostics resp'
       = diag.Append (Int64Draft.Diagnostics resp)
           [match answer with
            | inl cafes =>
                tfsdk.ValueConversionError
                  (SetDetail
                     (Int64Draft.DataSourceState
                        (Int64Draft.mkDataSourceModel
                           (map (fun cafe =>
                                   Int64Draft.mkModel
                                     (types.Int64Value (hashicups.ID cafe))
                                     (types.StringValue (hashicups.Name cafe))
                                     (types.StringValue (hashicups.Address cafe))
                                     (types.StringValue (hashicups.Description cafe))
                                     (types.StringValue (hashicups.Image cafe)))
                              cafes))))
            | inr err =>
                diag.NewErrorDiagnostic "Unable to Read HashiCups Cafes" err
            end].
Proof.
  intros Hc Hanswer.
  rewrite (Read_int64_run W SetDetail c d req resp e Hc), Hanswer.
  destruct answer as [cafes | err]; eexists; (split; [reflexivity |]);
    (split; [reflexivity |]); (split; [| reflexivity]);
    cbn [Int64Draft.Diagnostics]; unfold diag.AddError;
    rewrite HasError_Append; apply orb_true_r.
Qed.

Lemma Read_int64_contract_witness :
  exists resp',
    Int64Draft.Read Scenario.setDetail
      (Scenario.configuredInt64 Scenario.twoCafesInt64)
      (Scenario.readInt64 Scenario.getDetail Scenario.sampleStateObject)
      Scenario.priorInt64 Scenario.start
    = (Done resp', mkEnv tt [hashicups.CallGetCafes])
    /\ Int64Draft.State resp' = Some Scenario.sampleStateObject
    /\ diag.HasError (Int64Draft.Diagnostics resp') = true
    /\ Int64Draft.Diagnostics resp'
       = [tfsdk.ValueConversionError
            (Scenario.setDetail
               (Int64Draft.DataSourceState
                  (Int64Draft.mkDataSourceModel
                     [Int64Draft.cafeState Scenario.sampleCafe;
                      Int64Draft.cafeState Scenario.otherCafe])))].
Proof.
  exact (Read_int64_contract unit Scenario.setDetail Scenario.twoCafesInt64
           (Scenario.configuredInt64 Scenario.twoCafesInt64)
           (Scenario.readInt64 Scenario.getDetail Scenario.sampleStateObject)
           Scenario.priorInt64 Scenario.start
           (inl [Scenario.sampleCafe; Scenario.otherCafe]) tt
           eq_refl eq_refl).
Defined.

(** ** A stored model fed back to the text draft *)

(** X11.  Round trip of the text draft.  Take the model that [Create],
    [Read] and [Update] store for a cafe whose identifier is a Go [int].
    Given back as state or plan, it never fails to convert: [Read] queries
    the decimal text of the cafe's identifier, [Delete] deletes it, and
    [Update] sends, under that identifier, exactly the cafe the model was
    stored from. *)
Theorem stored_model_round_trip W Quote (c : StringDraft.Client W) r cafe
  diags resp e :
  StringDraft.client r = Some c ->
  strconv.is_int (hashicups.ID cafe) ->
  diag.HasError (StringDraft.Diagnostics resp) = false ->
  diag.HasError diags = false ->
  let stored :=
    StringDraft.mkModel
      (types.StringValue (strconv.Itoa (hashicups.ID cafe)))
      (types.StringValue (hashicups.Name cafe))
      (types.StringValue (hashicups.Address cafe))
      (types.StringValue (hashicups.Description cafe))
      (types.StringValue (hashicups.Image cafe)) in
  let cafeID := strconv.Itoa (hashicups.ID cafe) in
  calls (snd (StringDraft.Read Quote r
                (StringDraft.mkReadRequest (mkSource (diags, stored))) resp e))
  = (calls e ++ [hashicups.CallGetCafe cafeID])%list
  /\ calls (snd (StringDraft.Update Quote r
                   (StringDraft.mkUpdateRequest (mkSource (diags, stored))) resp e))
     = (calls e ++ [hashicups.CallUpdateCafe cafeID [cafe]])%list
  /\ calls (snd (StringDraft.Delete Quote r
                   (StringDraft.mkDeleteRequest (mkSource (diags, stored))) resp e))
     = (calls e ++ [hashicups.CallDeleteCafe cafeID])%list.
Proof.
  intros Hc Hint Hresp Hdiags stored cafeID. subst stored cafeID.
  split; [| split].
  - rewrite Read_string_run by assumption.
    cbn [Get fst snd StringDraft.ReadRequest_State StringDraft.ID
         types.ValueString].
    rewrite Atoi_Itoa by assumption. rewrite Hc.
    destruct (StringDraft.GetCafe c (strconv.Itoa (hashicups.ID cafe)) (world e))
      as [[[| first rest] | err] w']; reflexivity.
  - rewrite Update_string_run by assumption.
    cbn [Get fst snd StringDraft.UpdateRequest_Plan StringDraft.ID
         StringDraft.Name StringDraft.Address StringDraft.Description
         StringDraft.Image types.ValueString].
    rewrite Atoi_Itoa by assumption. rewrite Hc. destruct cafe as [i n a d m].
    cbn [hashicups.ID hashicups.Name hashicups.Address hashicups.Description
         hashicups.Image].
    match goal with
    | |- context [StringDraft.UpdateCafe c ?i ?q (world e)] =>
        destruct (StringDraft.UpdateCafe c i q (world e)) as [[updated | err] w']
    end; reflexivity.
  - rewrite Delete_string_run by assumption.
    cbn [Get fst snd StringDraft.DeleteRequest_State StringDraft.ID
         types.ValueString].
    rewrite Atoi_Itoa by assumption. rewrite Hc.
    destruct (StringDraft.DeleteCafe c (strconv.Itoa (hashicups.ID cafe)) (world e))
      as [[err |] w']; reflexivity.
Qed.

Lemma stored_model_round_trip_witness :
  calls (snd (StringDraft.Read Scenario.quote
                (Scenario.configuredString Scenario.echoString)
                (Scenario.readString Scenario.sampleStateString)
                Scenario.priorString Scenario.start))
  = [hashicups.CallGetCafe "42"]
  /\ calls (snd (StringDraft.Update Scenario.quote
                   (Scenario.configuredString Scenario.echoString)
                   (Scenario.updateString Scenario.sampleStateString)
                   Scenario.priorString Scenario.start))
     = [hashicups.CallUpdateCafe "42" [Scenario.sampleCafe]]
  /\ calls (snd (StringDraft.Delete Scenario.quote
                   (Scenario.configuredString Scenario.echoString)
                   (Scenario.deleteString Scenario.sampleStateString)
                   Scenario.priorString Scenario.start))
     = [hashicups.CallDeleteCafe "42"].
Proof.
  refine (stored_model_round_trip unit Scenario.quote Scenario.echoString
            (Scenario.configuredString Scenario.echoString)
            Scenario.sampleCafe [] Scenario.priorString Scenario.start
            eq_refl _ eq_refl eq_refl).
  unfold strconv.is_int, strconv.maxInt64. simpl. lia.
Defined.

(** ** What no handler does *)

(** Takes a finished run [H : handler ... e = (Done resp', e')] apart:
    every test and every answer of the client is split, the runs that panic
    are dismissed, and [resp'] and [e'] are replaced by what the run gives. *)
Ltac split_run H :=
  revert H; run_handler; intros H;
  cbv beta iota zeta delta [StringDraft.State_Set Int64Draft.State_Set] in H;
  repeat match type of H with
    | context [Get ?s] => destruct (Get s) as [? ?]
    | context [match ?x with _ => _ end] =>
        lazymatch x with
        | context [match _ with _ => _ end] => fail
        | _ => destruct x eqn:?
        end
    end;
  try discriminate H; injection H as <- <-.

Ltac unfold_response :=
  cbn [StringDraft.Diagnostics StringDraft.State StringDraft.Diagnostics_Append
       StringDraft.Diagnostics_AddError
       Int64Draft.Diagnostics Int64Draft.State Int64Draft.Diagnostics_Append
       Int64Draft.Diagnostics_AddError calls diag.Append fold_left] in *.

(** The three facts about a finished run: the diagnostics of the response
    are kept, an error leaves the state as it was, and the log grew by at
    most [n] requests. *)
Ltac settle_run n :=
  unfold_response; split; [| split];
  [ unfold diag.AddError; intros ? ?; rewrite ?In_Append; auto
  | intros ?; first [reflexivity | congruence]
  | first [ exists []; split; [now rewrite app_nil_r | cbn; lia]
          | eexists; split; [reflexivity | cbn; lia]
          | eexists; split; [now rewrite <- app_assoc | cbn; lia] ] ].

(** X12.  All or nothing in the text draft.  Whatever the resource, the
    request and the response given to [Create], [Read], [Update] or
    [Delete], a run that returns keeps every diagnostic the response held,
    leaves the state as it was whenever the response ends with an error,
    and has sent at most one request (there is no retry). *)
Theorem StringDraft_error_keeps_state W Quote (r : StringDraft.cafeResource W)
  create read update delete resp (run : M W StringDraft.Response) :
  run = StringDraft.Create r create resp
  \/ run = StringDraft.Read Quote r read resp
  \/ run = StringDraft.Update Quote r update resp
  \/ run = StringDraft.Delete Quote r delete resp ->
  forall e resp' e',
    run e = (Done resp', e') ->
    (forall d, In d (StringDraft.Diagnostics resp) ->
               In d (StringDraft.Diagnostics resp'))
    /\ (diag.HasError (StringDraft.Diagnostics resp') = true ->
        StringDraft.State resp' = StringDraft.State resp)
    /\ exists sent,
         calls e' = (calls e ++ sent)%list /\ (length sent <= 1)%nat.
Proof.
  intros [-> | [-> | [-> | ->]]] e resp' e' Hrun; split_run Hrun.
  all: settle_run 1%nat.
Qed.

Lemma StringDraft_error_keeps_state_witness :
  (diag.HasError
     [diag.NewErrorDiagnostic "Error Updating HashiCups Cafe"
        "Could not update cafe, unexpected error: connection refused"]
   = true ->
   Some Scenario.sampleStateString = StringDraft.State Scenario.priorString)
  /\ exists sent,
       [hashicups.CallUpdateCafe "+0042" [Scenario.sampleCafe]]
       = (calls Scenario.start ++ sent)%list
       /\ (length sent <= 1)%nat.
Proof.
  exact (proj2
           (StringDraft_error_keeps_state unit Scenario.quote
              (Scenario.configuredString Scenario.failingString)
              (Scenario.createString Scenario.samplePlanString)
              (Scenario.readString Scenario.sampleStateString)
              (Scenario.updateString Scenario.signedStateString)
              (Scenario.deleteString Scenario.sampleStateString)
              Scenario.priorString _
              (or_intror (or_intror (or_introl eq_refl)))
              Scenario.start
              (StringDraft.mkResponse (Some Scenario.sampleStateString)
                 [diag.NewErrorDiagnostic "Error Updating HashiCups Cafe"
                    "Could not update cafe, unexpected error: connection refused"])
              (mkEnv tt [hashicups.CallUpdateCafe "+0042" [Scenario.sampleCafe]])
              eq_refl)).
Defined.

(** X13.  The integer draft never stores.  Whatever the resource, the
    request and the response given to [Create], [Read], [Update] or
    [Delete], a run that returns keeps every diagnostic the response held,
    leaves the state as it was (the values handed to [State.Set] are not
    objects of the resource's schema), and has sent at most two requests. *)
Theorem Int64Draft_never_stores W SetDetail (r : Int64Draft.cafeResource W)
  create read update delete resp (run : M W Int64Draft.Response) :
  run = Int64Draft.Create SetDetail r create resp
  \/ run = Int64Draft.Read SetDetail r read resp
  \/ run = Int64Draft.Update SetDetail r update resp
  \/ run = Int64Draft.Delete r delete resp ->
  forall e resp' e',
    run e = (Done resp', e') ->
    (forall d, In d (Int64Draft.Diagnostics resp) ->
               In d (Int64Draft.Diagnostics resp'))
    /\ Int64Draft.State resp' = Int64Draft.State resp
    /\ exists sent,
         calls e' = (calls e ++ sent)%list /\ (length sent <= 2)%nat.
Proof.
  intros [-> | [-> | [-> | ->]]] e resp' e' Hrun; split_run Hrun.
  all: try match goal with
         | Hfits : tfsdk.conforms _ (Int64Draft.encode _) = true |- _ =>
             rewrite Int64Draft_Set_refused in Hfits; discriminate Hfits
         end.
  all: unfold_response; split; [| split];
    [ unfold diag.AddError; intros ? ?; rewrite ?In_Append1, ?In_Append; auto
    | reflexivity
    | first [ exists []; split; [now rewrite app_nil_r | cbn; lia]
            | eexists; split; [reflexivity | cbn; lia]
            | eexists; split; [now rewrite <- app_assoc | cbn; lia] ] ].
Qed.

Lemma Int64Draft_never_stores_witness :
  Int64Draft.State
    (Int64Draft.mkResponse (Some Scenario.sampleStateObject)
       [tfsdk.ValueConversionError
          (Scenario.setDetail
             (Int64Draft.DataSourceState
                (Int64Draft.mkDataSourceModel
                   [Int64Draft.cafeState Scenario.sampleCafe;
                    Int64Draft.cafeState Scenario.otherCafe])))])
  = Int64Draft.State Scenario.priorInt64
  /\ exists sent,
       [hashicups.CallGetCafes] = (calls Scenario.start ++ sent)%list
       /\ (length sent <= 2)%nat.
Proof.
  exact (proj2
           (Int64Draft_never_stores unit Scenario.setDetail
              (Scenario.configuredInt64 Scenario.twoCafesInt64)
              (Scenario.createInt64 Scenario.getDetail Scenario.samplePlanObject)
              (Scenario.readInt64 Scenario.getDetail Scenario.sampleStateObject)
              (Scenario.updateInt64 Scenario.getDetail Scenario.renamedPlanObject)
              (Scenario.deleteInt64 Scenario.getDetail Scenario.sampleStateObject)
              Scenario.priorInt64 _
              (or_intror (or_introl eq_refl))
              Scenario.start
              (Int64Draft.mkResponse (Some Scenario.sampleStateObject)
                 [tfsdk.ValueConversionError
                    (Scenario.setDetail
                       (Int64Draft.DataSourceState
                          (Int64Draft.mkDataSourceModel
                             [Int64Draft.cafeState Scenario.sampleCafe;
                              Int64Draft.cafeState Scenario.otherCafe])))])
              (mkEnv tt [hashicups.CallGetCafes])
              eq_refl)).
Defined.

(** X14.  A plan or state that does not decode stops the handler at once.
    When the response already holds an error, or the decoding reports one,
    [Create], [Read], [Update] and [Delete] of the text draft and [Create],
    [Update] and [Delete] of the integer draft return the response with the
    diagnostics of the decoding appended and nothing else changed: nothing
    is sent, and the client is not touched, configured or not. *)
Theorem decode_error_stops_handler (W : Type) :
  (forall Quote (r : StringDraft.cafeResource W) create read update delete resp
          run source,
     (run = StringDraft.Create r create resp
      /\ source = StringDraft.CreateRequest_Plan create)
     \/ (run = StringDraft.Read Quote r read resp
         /\ source = StringDraft.ReadRequest_State read)
     \/ (run = StringDraft.Update Quote r update resp
         /\ source = StringDraft.UpdateRequest_Plan update)
     \/ (run = StringDraft.Delete Quote r delete resp
         /\ source = StringDraft.DeleteRequest_State delete) ->
     diag.HasError (StringDraft.Diagnostics resp) = true
     \/ diag.HasError (fst (Get source)) = true ->
     forall e,
       run e
       = (Done (StringDraft.mkResponse (StringDraft.State resp)
                  (diag.Append (StringDraft.Diagnostics resp) (fst (Get source)))),
          e))
  /\
  (forall SetDetail (r : Int64Draft.cafeResource W) create update delete resp
          run source,
     (run = Int64Draft.Create SetDetail r create resp
      /\ source = Int64Draft.CreateRequest_Plan create)
     \/ (run = Int64Draft.Update SetDetail r update resp
         /\ source = Int64Draft.UpdateRequest_Plan update)
     \/ (run = Int64Draft.Delete r delete resp
         /\ source = Int64Draft.DeleteRequest_State delete) ->
     diag.HasError (Int64Draft.Diagnostics resp) = true
     \/ diag.HasError (fst (Get source)) = true ->
     forall e,
       run e
       = (Done (Int64Draft.mkResponse (Int64Draft.State resp)
                  (diag.Append (Int64Draft.Diagnostics resp) (fst (Get source)))),
          e)).
Proof.
  split.
  - intros Quote r create read update delete resp run source Hrun Herr e.
    assert (Hseen : diag.HasError
                      (diag.Append (StringDraft.Diagnostics resp) (fst (Get source)))
                    = true)
      by (rewrite HasError_Append; destruct Herr as [-> | ->];
          [reflexivity | apply orb_true_r]).
    destruct Hrun as [[-> ->] | [[-> ->] | [[-> ->] | [-> ->]]]];
      run_handler;
      match goal with |- context [Get ?s] => destruct (Get s) as [diags m] end;
      cbn [fst StringDraft.Diagnostics StringDraft.Diagnostics_Append] in *;
      rewrite Hseen; reflexivity.
  - intros SetDetail r create update delete resp run source Hrun Herr e.
    assert (Hseen : diag.HasError
                      (diag.Append (Int64Draft.Diagnostics resp) (fst (Get source)))
                    = true)
      by (rewrite HasError_Append; destruct Herr as [-> | ->];
          [reflexivity | apply orb_true_r]).
    destruct Hrun as [[-> ->] | [[-> ->] | [-> ->]]];
      run_handler;
      match goal with |- context [Get ?s] => destruct (Get s) as [diags m] end;
      cbn [fst Int64Draft.Diagnostics Int64Draft.Diagnostics_Append] in *;
      rewrite Hseen; reflexivity.
Qed.

Lemma decode_error_stops_handler_witness :
  StringDraft.Update Scenario.quote StringDraft.NewCafeResource
    (StringDraft.mkUpdateRequest
       (mkSource (Scenario.conversionFailed, Scenario.renamedPlanString)))
    Scenario.priorString Scenario.start
  = (Done (StringDraft.mkResponse (Some Scenario.sampleStateString)
             Scenario.conversionFailed),
     Scenario.start).
Proof.
  exact (proj1 (decode_error_stops_handler unit) Scenario.quote
           StringDraft.NewCafeResource
           (Scenario.createString Scenario.samplePlanString)
           (Scenario.readString Scenario.sampleStateString)
           (StringDraft.mkUpdateRequest
              (mkSource (Scenario.conversionFailed, Scenario.renamedPlanString)))
           (Scenario.deleteString Scenario.sampleStateString)
           Scenario.priorString _ _
           (or_intror (or_intror (or_introl (conj eq_refl eq_refl))))
           (or_intror eq_refl) Scenario.start).
Defined.

(** ** Metadata and Schema *)

Lemma string_length_append (s t : string) :
  String.length (s ++ t) = (String.length s + String.length t)%nat.
Proof. induction s as [| a s IH]; cbn; [reflexivity | now rewrite IH]. Qed.

Lemma string_append_cancel_r (t : string) : forall s1 s2 : string,
  (s1 ++ t = s2 ++ t)%string -> s1 = s2.
Proof.
  induction s1 as [| a s1 IH]; intros [| b s2] H; cbn in H.
  - reflexivity.
  - apply (f_equal String.length) in H. cbn in H.
    rewrite string_length_append in H. lia.
  - apply (f_equal String.length) in H. cbn in H.
    rewrite string_length_append in H. lia.
  - injection H as -> H. f_equal. now apply IH.
Qed.

(** X15.  [Metadata] of either draft sets the type name to the provider's
    type name followed by "_cafe", whatever the response held, so providers
    with different type names get different resource type names. *)
Theorem Metadata_type_name :
  (forall req resp,
     TypeName (StringDraft.Metadata req resp) = ProviderTypeName req ++ "_cafe"
     /\ TypeName (Int64Draft.Metadata req resp) = ProviderTypeName req ++ "_cafe")
  /\ (forall req1 resp1 req2 resp2,
        ProviderTypeName req1 <> ProviderTypeName req2 ->
        TypeName (StringDraft.Metadata req1 resp1)
        <> TypeName (StringDraft.Metadata req2 resp2)
        /\ TypeName (Int64Draft.Metadata req1 resp1)
           <> TypeName (Int64Draft.Metadata req2 resp2)).
Proof.
  split.
  - intros req resp. split; reflexivity.
  - intros req1 resp1 req2 resp2 Hdiff.
    split; intros Hsame; apply Hdiff;
      cbn [StringDraft.Metadata Int64Draft.Metadata TypeName] in Hsame;
      now apply string_append_cancel_r in Hsame.
Qed.

Lemma Metadata_type_name_witness :
  TypeName (StringDraft.Metadata (mkMetadataRequest "inpyu")
              (mkMetadataResponse EmptyString))
  <> TypeName (StringDraft.Metadata (mkMetadataRequest "hashicups")
                 (mkMetadataResponse Scenario.main_tf_type))
  /\ TypeName (Int64Draft.Metadata (mkMetadataRequest "inpyu")
                 (mkMetadataResponse EmptyString))
     <> TypeName (Int64Draft.Metadata (mkMetadataRequest "hashicups")
                    (mkMetadataResponse Scenario.main_tf_type)).
Proof.
  exact (proj2 Metadata_type_name
           (mkMetadataRequest "inpyu") (mkMetadataResponse EmptyString)
           (mkMetadataRequest "hashicups") (mkMetadataResponse Scenario.main_tf_type)
           ltac:(discriminate)).
Defined.

(** The resource block of the example configuration names the type that
    [Metadata] gives for the provider "inpyu", and every attribute it sets
    is optional in the schema of the text draft and computed, not
    optional, in the schema of the integer draft. *)
Example main_tf_against_schemas :
  TypeName (StringDraft.Metadata (mkMetadataRequest "inpyu")
              (mkMetadataResponse EmptyString))
  = Scenario.main_tf_type
  /\ (forall name value,
        In (name, value) Scenario.main_tf_attributes ->
        exists text whole,
          schema.lookup name
            (schema.Attributes
               (SchemaResponse_Schema
                  (StringDraft.Schema (mkSchemaResponse (schema.mkSchema [])))))
          = Some text
          /\ schema.Optional text = true
          /\ schema.lookup name
               (schema.Attributes
                  (SchemaResponse_Schema
                     (Int64Draft.Schema (mkSchemaResponse (schema.mkSchema [])))))
             = Some whole
          /\ schema.Optional whole = false
          /\ schema.Computed whole = true).
Proof.
  split; [reflexivity |]. intros name value Hin. cbn in Hin.
  repeat destruct Hin as [Hin | Hin]; try contradiction;
    injection Hin as <- <-; do 2 eexists; repeat split.
Qed.

(** X16.  The schemas.  Both drafts declare the same five text attributes
    (id, name, address, description, image), none of them required; the
    identifier is computed, not optional, and keeps its prior value while
    unknown.  The text draft declares the other four optional and not
    computed; the integer draft declares them computed and not optional.
    The schema set does not depend on what the response held. *)
Theorem Schema_attributes :
  (forall resp name attr,
     In (name, attr)
        (schema.Attributes (SchemaResponse_Schema (StringDraft.Schema resp))) ->
     In name ["id"; "name"; "address"; "description"; "image"]
     /\ schema.Required attr = false
     /\ schema.Computed attr = String.eqb name "id"
     /\ schema.Optional attr = negb (String.eqb name "id")
     /\ schema.PlanModifiers attr
        = (if String.eqb name "id" then [schema.UseStateForUnknown] else []))
  /\ (forall resp name attr,
        In (name, attr)
           (schema.Attributes (SchemaResponse_Schema (Int64Draft.Schema resp))) ->
        In name ["id"; "name"; "address"; "description"; "image"]
        /\ schema.Required attr = false
        /\ schema.Computed attr = true
        /\ schema.Optional attr = false
        /\ schema.PlanModifiers attr
           = (if String.eqb name "id" then [schema.UseStateForUnknown] else []))
  /\ (forall resp1 resp2 name,
        In name ["id"; "name"; "address"; "description"; "image"] ->
        schema.lookup name
          (schema.Attributes (SchemaResponse_Schema (StringDraft.Schema resp1)))
        <> None
        /\ schema.lookup name
             (schema.Attributes (SchemaResponse_Schema (Int64Draft.Schema resp2)))
           <> None).
Proof.
  split; [| split].
  - intros resp name attr Hin. cbn in Hin.
    repeat destruct Hin as [Hin | Hin]; try contradiction;
      injection Hin as <- <-; cbn; intuition.
  - intros resp name attr Hin. cbn in Hin.
    repeat destruct Hin as [Hin | Hin]; try contradiction;
      injection Hin as <- <-; cbn; intuition.
  - intros resp1 resp2 name Hin. cbn in Hin.
    repeat destruct Hin as [Hin | Hin]; try contradiction; subst name;
      split; discriminate.
Qed.

Lemma Schema_attributes_witness :
  In "name" ["id"; "name"; "address"; "description"; "image"]
  /\ schema.Required (schema.mkStringAttribute false true false []) = false
  /\ schema.Computed (schema.mkStringAttribute false true false []) = false
  /\ schema.Optional (schema.mkStringAttribute false true false []) = true
  /\ schema.PlanModifiers (schema.mkStringAttribute false true false []) = [].
Proof.
  exact (proj1 Schema_attributes (mkSchemaResponse (schema.mkSchema []))
           "name" (schema.mkStringAttribute false true false [])
           (or_intror (or_introl eq_refl))).
Defined.

(** ** Create followed by Read *)

(** X17.  In the text draft a [Read] that follows a successful [Create] on
    the state it stored, against a remote that answers the query with the
    created cafe first, stores that same state again and reports nothing.
    The two requests sent are the create request built from the plan and a
    query for the decimal text of the identifier the remote assigned (a Go
    [int]). *)
Theorem Create_then_Read_stable W Quote (c : StringDraft.Client W) r create
  resp e created w1 rest w2 :
  StringDraft.client r = Some c ->
  diag.HasError (StringDraft.Diagnostics resp) = false ->
  diag.HasError (fst (Get (StringDraft.CreateRequest_Plan create))) = false ->
  let plan := snd (Get (StringDraft.CreateRequest_Plan create)) in
  let request :=
    [hashicups.mkCafe 0
       (types.ValueString (StringDraft.Name plan))
       (types.ValueString (StringDraft.Address plan))
       (types.ValueString (StringDraft.Description plan))
       (types.ValueString (StringDraft.Image plan))] in
  StringDraft.CreateCafe c request (world e) = (inl created, w1) ->
  strconv.is_int (hashicups.ID created) ->
  StringDraft.GetCafe c (strconv.Itoa (hashicups.ID created)) w1
  = (inl (created :: rest), w2) ->
  exists resp1 e1 stored resp2,
    StringDraft.Create r create resp e = (Done resp1, e1)
    /\ StringDraft.State resp1 = Some stored
    /\ StringDraft.Read Quote r
         (StringDraft.mkReadRequest (mkSource ([], stored))) resp1 e1
       = (Done resp2,
          mkEnv w2
            (calls e
             ++ [hashicups.CallCreateCafe request;
                 hashicups.CallGetCafe (strconv.Itoa (hashicups.ID created))])%list)
    /\ StringDraft.State resp2 = Some stored
    /\ diag.HasError (StringDraft.Diagnostics resp2) = false.
Proof.
  intros Hc Hresp Hplan plan request Hcreate Hint Hget. subst plan request.
  rewrite (Create_string_run W c r create resp e Hc Hresp Hplan).
  cbv zeta. rewrite Hcreate.
  assert (Hseen : diag.HasError
                    (diag.Append (StringDraft.Diagnostics resp)
                       (fst (Get (StringDraft.CreateRequest_Plan create))))
                  = false)
    by now rewrite HasError_Append, Hresp, Hplan.
  do 3 eexists.
  erewrite (Read_string_refresh W Quote c r _ _ _ (hashicups.ID created) created
              rest w2 Hc).
  - eexists. split; [reflexivity |]. split; [reflexivity |].
    split; [cbn [calls]; now rewrite <- app_assoc |].
    split; [reflexivity | exact Hseen].
  - exact Hseen.
  - reflexivity.
  - cbn. now apply Atoi_Itoa.
  - exact Hget.
Qed.

Lemma Create_then_Read_stable_witness :
  exists resp1 e1 stored resp2,
    StringDraft.Create (Scenario.configuredString Scenario.echoString)
      (Scenario.createString Scenario.samplePlanString)
      Scenario.freshString Scenario.start
    = (Done resp1, e1)
    /\ StringDraft.State resp1 = Some stored
    /\ StringDraft.Read Scenario.quote
         (Scenario.configuredString Scenario.echoString)
         (StringDraft.mkReadRequest (mkSource ([], stored))) resp1 e1
       = (Done resp2,
          mkEnv tt
            [hashicups.CallCreateCafe
               [hashicups.mkCafe 0 "Sample Cafe" "123 Coffee St" "A cozy place"
                  "http://example.com/image.jpg"];
             hashicups.CallGetCafe "42"])
    /\ StringDraft.State resp2 = Some stored
    /\ diag.HasError (StringDraft.Diagnostics resp2) = false.
Proof.
  refine (Create_then_Read_stable unit Scenario.quote Scenario.echoString
            (Scenario.configuredString Scenario.echoString)
            (Scenario.createString Scenario.samplePlanString)
            Scenario.freshString Scenario.start Scenario.sampleCafe tt [] tt
            eq_refl eq_refl eq_refl eq_refl _ eq_refl).
  unfold strconv.is_int, strconv.maxInt64. simpl. lia.
Defined.

(** ** Models against schemas *)

(** X18.  The model of the text draft fits its schema.  The object built
    from any model is one of the schema and decodes back to that model
    without a diagnostic; and every object of the schema decodes without a
    diagnostic into the model that holds its five values. *)
Theorem StringDraft_model_fits_schema :
  (forall detail m,
     tfsdk.conforms StringDraft.resource_schema (StringDraft.encode m) = true
     /\ StringDraft.Get_into detail (StringDraft.encode m) = ([], m))
  /\ (forall detail o,
        tfsdk.conforms StringDraft.resource_schema o = true ->
        exists m,
          StringDraft.Get_into detail o = ([], m)
          /\ tfsdk.lookup "id" o = Some (tfsdk.OfString (StringDraft.ID m))
          /\ tfsdk.lookup "name" o = Some (tfsdk.OfString (StringDraft.Name m))
          /\ tfsdk.lookup "address" o
             = Some (tfsdk.OfString (StringDraft.Address m))
          /\ tfsdk.lookup "description" o
             = Some (tfsdk.OfString (StringDraft.Description m))
          /\ tfsdk.lookup "image" o = Some (tfsdk.OfString (StringDraft.Image m))).
Proof.
  split.
  - intros detail [id name address description image]. split; reflexivity.
  - intros detail o Hfits.
    destruct (conforms_text _ _ "id" _ Hfits eq_refl) as [id Hid].
    destruct (conforms_text _ _ "name" _ Hfits eq_refl) as [name Hname].
    destruct (conforms_text _ _ "address" _ Hfits eq_refl) as [address Haddress].
    destruct (conforms_text _ _ "description" _ Hfits eq_refl)
      as [description Hdescription].
    destruct (conforms_text _ _ "image" _ Hfits eq_refl) as [image Himage].
    exists (StringDraft.mkModel id name address description image).
    unfold StringDraft.Get_into, tfsdk.into_String.
    rewrite (StringDraft_covered o Hfits), Hid, Hname, Haddress, Hdescription,
      Himage.
    repeat split.
Qed.

Lemma StringDraft_model_fits_schema_witness :
  exists m,
    StringDraft.Get_into Scenario.getDetail Scenario.samplePlanObject = ([], m)
    /\ tfsdk.lookup "id" Scenario.samplePlanObject
       = Some (tfsdk.OfString (StringDraft.ID m))
    /\ tfsdk.lookup "name" Scenario.samplePlanObject
       = Some (tfsdk.OfString (StringDraft.Name m))
    /\ tfsdk.lookup "address" Scenario.samplePlanObject
       = Some (tfsdk.OfString (StringDraft.Address m))
    /\ tfsdk.lookup "description" Scenario.samplePlanObject
       = Some (tfsdk.OfString (StringDraft.Description m))
    /\ tfsdk.lookup "image" Scenario.samplePlanObject
       = Some (tfsdk.OfString (StringDraft.Image m)).
Proof.
  exact (proj2 StringDraft_model_fits_schema Scenario.getDetail
           Scenario.samplePlanObject eq_refl).
Defined.

(** X19.  The model of the integer draft does not fit its schema.
    Decoding any object of the schema into [cafeResourceModel] reports a
    "Value Conversion Error" and leaves the zero model, and [State.Set]
    refuses every value the draft hands it, the resource model as well as
    the list model, with a "Value Conversion Error" and the response as it
    was. *)
Theorem Int64Draft_model_misfits_schema :
  (forall detail o,
     tfsdk.conforms Int64Draft.resource_schema o = true ->
     Int64Draft.Get_into detail o
     = ([tfsdk.ValueConversionError detail],
        Int64Draft.mkModel types.Int64Null types.StringNull types.StringNull
          types.StringNull types.StringNull)
     /\ diag.HasError (fst (Int64Draft.Get_into detail o)) = true)
  /\ (forall SetDetail resp v,
        Int64Draft.State_Set SetDetail resp v
        = ([tfsdk.ValueConversionError (SetDetail v)], resp)).
Proof.
  split.
  - intros detail o Hfits. rewrite (Int64Draft_Get_refused detail o Hfits).
    split; reflexivity.
  - intros SetDetail resp v. unfold Int64Draft.State_Set.
    now rewrite Int64Draft_Set_refused.
Qed.

Lemma Int64Draft_model_misfits_schema_witness :
  Int64Draft.Get_into Scenario.getDetail Scenario.sampleStateObject
  = ([tfsdk.ValueConversionError Scenario.getDetail],
     Int64Draft.mkModel types.Int64Null types.StringNull types.StringNull
       types.StringNull types.StringNull)
  /\ diag.HasError
       (fst (Int64Draft.Get_into Scenario.getDetail Scenario.sampleStateObject))
     = true.
Proof.
  exact (proj1 Int64Draft_model_misfits_schema Scenario.getDetail
           Scenario.sampleStateObject eq_refl).
Defined.
